(** * Backbone modules of DePerceiver (src/models/backbone.py)

    A shallow embedding of the backbone variants and of the entry point
    that selects among them.  Tensors are modelled by their shape (a list
    of integers, as [x.shape]) together with an element-access function;
    the PyTorch primitives the file calls ([F.pad], [Tensor.unfold],
    [permute], [view], [F.interpolate], indexing) are modelled by their
    documented effect on shapes and elements, and by the conditions under
    which they raise.  Python exceptions are values of [exn]; a call that
    may raise returns a [result].  Objects that the code changes in place
    (parameters, the state dictionary, the lists of keys) are threaded
    through: a function returns their state after the call.

    Left out: the arithmetic of [FrozenBatchNorm2d.forward], which is
    floating-point, and the change of element type in [Joiner.forward]. *)

From Stdlib Require Import ZArith QArith DecimalString Ascii String List Bool Lia.
Import ListNotations.
Local Open Scope Z_scope.

Set Implicit Arguments.

(** ** Exceptions and fallible computations *)

Inductive exn : Type :=
| AssertionError
| NotImplementedError (msg : string)
| ZeroDivisionError
| ValueError
| IndexError
| AttributeError
| KeyError
| RuntimeError.

Inductive result (A : Type) : Type :=
| Ok (a : A)
| Raise (e : exn).

Arguments Ok {A} a.
Arguments Raise {A} e.

Definition bind {A B : Type} (c : result A) (k : A -> result B) : result B :=
  match c with
  | Ok a => k a
  | Raise e => Raise e
  end.

Notation "x <- c ;; k" := (bind c (fun x => k))
  (at level 61, c at next level, right associativity).

(** ** Tensors *)

Record Tensor (A : Type) : Type := mkTensor {
  shape : list Z;
  data : list Z -> A
}.

(** The scalar side of the framework: the floating-point element type, the
    two constants the file uses, the conversions of [.float()] and
    [.to(torch.bool)], and the source index the nearest-neighbour kernel of
    [F.interpolate] picks for an output index (computed there in floating
    point from the input and output lengths). *)
Class Torch (float : Type) : Type := {
  fzero : float;
  fone : float;
  of_bool : bool -> float;
  to_bool : float -> bool;
  nearest_src : Z -> Z -> Z -> Z
}.

Definition numel (s : list Z) : Z := fold_right Z.mul 1 s.

Definition nthZ (l : list Z) (i : nat) : Z := nth i l 0.

Fixpoint set_nth {A : Type} (i : nat) (v : A) (l : list A) : list A :=
  match l, i with
  | [], _ => []
  | _ :: t, O => v :: t
  | a :: t, S j => a :: set_nth j v t
  end.

(** [x.shape[-2:]] *)
Definition last2 (s : list Z) : list Z := skipn (length s - 2) s.

(** *** [F.pad(x, pad)] in the default constant mode, value 0.

    The pairs of [pad] are consumed from the LAST dimension backwards:
    the first pair pads the last dimension, the second pair the one before.
    A negative amount crops; the call raises when a crop takes more than
    there is, when [pad] has odd length, or more pairs than dimensions. *)
Fixpoint pad_shape_rev (rsh pad : list Z) : result (list Z) :=
  match pad, rsh with
  | [], _ => Ok rsh
  | lo :: hi :: pad', n :: rsh' =>
      if n + Z.min lo 0 + Z.min hi 0 <? 0 then Raise RuntimeError
      else rest <- pad_shape_rev rsh' pad' ;; Ok (n + lo + hi :: rest)
  | _, _ => Raise RuntimeError
  end.

Fixpoint pad_src_rev (rsh pad ridx : list Z) : option (list Z) :=
  match pad, rsh, ridx with
  | lo :: _ :: pad', n :: rsh', i :: ridx' =>
      if (0 <=? i - lo) && (i - lo <? n)
      then option_map (cons (i - lo)) (pad_src_rev rsh' pad' ridx')
      else None
  | _, _, _ => Some ridx
  end.

Definition F_pad {float : Type} `{Torch float} (x : Tensor float) (pad : list Z)
  : result (Tensor float) :=
  rsh <- pad_shape_rev (rev (shape x)) pad ;;
  Ok {| shape := rev rsh;
        data := fun idx =>
          match pad_src_rev (rev (shape x)) pad (rev idx) with
          | Some r => data x (rev r)
          | None => fzero
          end |}.

(** *** [x.unfold(dimension, size, step)]: all windows of length [size]
    taken every [step] along [dimension]; the window becomes a new last
    dimension.  No dilation is involved. *)
Definition unfold {A : Type} (x : Tensor A) (dimension : nat) (size step : Z)
  : result (Tensor A) :=
  match nth_error (shape x) dimension with
  | None => Raise IndexError
  | Some len =>
      if (len <? size) || (size <? 0) then Raise RuntimeError
      else if step <=? 0 then Raise RuntimeError
      else Ok {| shape := set_nth dimension ((len - size) / step + 1) (shape x) ++ [size];
                 data := fun idx =>
                   let i := removelast idx in
                   data x (set_nth dimension (nthZ i dimension * step + last idx 0) i) |}
  end.

(** *** [x.permute(dims)] *)
Definition is_permutation (dims : list nat) (n : nat) : bool :=
  (length dims =? n)%nat && forallb (fun j => existsb (Nat.eqb j) dims) (seq 0 n).

Fixpoint index_of (j : nat) (dims : list nat) : nat :=
  match dims with
  | [] => O
  | d :: t => if (d =? j)%nat then O else S (index_of j t)
  end.

Definition permute {A : Type} (x : Tensor A) (dims : list nat) : result (Tensor A) :=
  if is_permutation dims (length (shape x)) then
    Ok {| shape := map (nthZ (shape x)) dims;
          data := fun idx =>
            data x (map (fun j => nthZ idx (index_of j dims)) (seq 0 (length dims))) |}
  else Raise RuntimeError.

(** *** [x.contiguous()] changes the memory layout only. *)
Definition contiguous {A : Type} (x : Tensor A) : Tensor A := x.

(** *** [x.view(size)], with at most one entry [-1] to be inferred.
    On a contiguous tensor the elements keep their row-major order. *)
Definition infer_size (size : list Z) (n : Z) : result (list Z) :=
  let known := filter (fun d => negb (d =? -1)) size in
  let ninfer := (length size - length known)%nat in
  if existsb (fun d => d <? 0) known then Raise RuntimeError
  else if (1 <? ninfer)%nat then Raise RuntimeError
  else
    let newsize := numel known in
    if (ninfer =? 1)%nat then
      if (n =? newsize) || ((0 <? newsize) && (n mod newsize =? 0)) then
        if newsize =? 0 then Raise RuntimeError
        else Ok (map (fun d => if d =? -1 then n / newsize else d) size)
      else Raise RuntimeError
    else if n =? newsize then Ok size
    else Raise RuntimeError.

Definition ravel (sh idx : list Z) : Z :=
  fold_left (fun acc p => acc * fst p + snd p) (combine sh idx) 0.

Fixpoint unravel_rev (rsh : list Z) (flat : Z) : list Z :=
  match rsh with
  | [] => []
  | n :: r => flat mod n :: unravel_rev r (flat / n)
  end.

Definition unravel (sh : list Z) (flat : Z) : list Z :=
  rev (unravel_rev (rev sh) flat).

Definition view {A : Type} (x : Tensor A) (size : list Z) : result (Tensor A) :=
  sh <- infer_size size (numel (shape x)) ;;
  Ok {| shape := sh;
        data := fun idx => data x (unravel (shape x) (ravel sh idx)) |}.

(** *** [math.ceil(a / b)] on integers.  The source divides in floating
    point (double precision) and rounds up.  For [0 <= a < 2 ^ 53] and
    [0 < b < 2 ^ 53] that is the integer ceiling, written here with
    Python's floor division ([float64_ceil_div] below is the
    floating-point computation, and the two are proved equal on that
    range); from [2 ^ 53] on they differ, and the further properties that
    depend on the value of the ceiling are stated for sizes below
    [2 ^ 53]. *)
Definition math_ceil_div (a b : Z) : result Z :=
  if b =? 0 then Raise ZeroDivisionError else Ok (- ((- a) / b)).

(** ** Padded batches

    Modelled from the spec: [NestedTensor] of util/misc.py, which is not
    among the sources: "a padded-batch value pairs a dense numeric tensor
    with a boolean validity mask"; the mask may be absent ([None]). *)
Record NestedTensor (float : Type) : Type := mkNestedTensor {
  tensors : Tensor float;
  mask : option (Tensor bool)
}.

(** ** Patch-embedding backbone *)

Definition extract_image_patches {float : Type} `{Torch float}
  (x : Tensor float) (kernel stride dilation : Z) : result (Tensor float) :=
  match shape x with
  | [b; c; h; w] =>
      h2 <- math_ceil_div h stride ;;
      w2 <- math_ceil_div w stride ;;
      let pad_row := (h2 - 1) * stride + (kernel - 1) * dilation + 1 - h in
      let pad_col := (w2 - 1) * stride + (kernel - 1) * dilation + 1 - w in
      x <- F_pad x [pad_row / 2; pad_row - pad_row / 2;
                    pad_col / 2; pad_col - pad_col / 2] ;;
      patches <- unfold x 2 kernel stride ;;
      patches <- unfold patches 3 kernel stride ;;
      patches <- permute patches [0; 4; 5; 1; 2; 3]%nat ;;
      let patches := contiguous patches in
      view patches [b; -1;
                    nthZ (shape patches) (length (shape patches) - 2);
                    nthZ (shape patches) (length (shape patches) - 1)]
  | _ => Raise ValueError
  end.

Record PatchBackbone : Type := mkPatchBackbone {
  pb_kernel : Z;
  pb_num_channels : Z;
  pb_stride : Z;
  pb_dilation : Z
}.

Definition PatchBackbone_init (kernel stride dilation : Z) : PatchBackbone :=
  {| pb_kernel := kernel;
     pb_num_channels := kernel ^ 2 * 3;
     pb_stride := stride;
     pb_dilation := dilation |}.

Definition PatchBackbone_forward {float : Type} `{Torch float}
  (self : PatchBackbone) (tensor_list : NestedTensor float)
  : result (NestedTensor float) :=
  x <- extract_image_patches (tensors tensor_list)
         (pb_kernel self) (pb_stride self) (pb_dilation self) ;;
  let output := mkNestedTensor x (mask tensor_list) in
  Ok output.

(** ** Identity variant *)

Record NoBackbone : Type := mkNoBackbone {
  nb_num_channels : Z
}.

Definition NoBackbone_init : NoBackbone :=
  {| nb_num_channels := 3 |}.

Definition Identity_forward {A : Type} (input : A) : A := input.

Definition NoBackbone_forward {float : Type}
  (self : NoBackbone) (tensor_list : NestedTensor float) : NestedTensor float :=
  let output := Identity_forward tensor_list in
  output.

(** ** Python dictionaries (insertion-ordered, keys unique) *)

Definition dict (V : Type) : Type := list (string * V).

Definition dict_in {V : Type} (k : string) (d : dict V) : bool :=
  existsb (fun e => String.eqb (fst e) k) d.

Fixpoint dict_get {V : Type} (k : string) (d : dict V) : option V :=
  match d with
  | [] => None
  | (k', v) :: t => if String.eqb k' k then Some v else dict_get k t
  end.

(** [del d[k]] *)
Definition dict_del {V : Type} (k : string) (d : dict V) : dict V :=
  filter (fun e => negb (String.eqb (fst e) k)) d.

(** [d[k] = v]: a present key keeps its position, a new one goes last. *)
Fixpoint dict_set {V : Type} (k : string) (v : V) (d : dict V) : dict V :=
  match d with
  | [] => [(k, v)]
  | (k', v') :: t => if String.eqb k' k then (k, v) :: t else (k', v') :: dict_set k v t
  end.

Definition keys {V : Type} (d : dict V) : list string := map fst d.

(** [sub in s] on strings *)
Fixpoint contains (sub s : string) : bool :=
  String.prefix sub s ||
  match s with
  | EmptyString => false
  | String _ t => contains sub t
  end.

Definition str_in (s : string) (l : list string) : bool :=
  existsb (String.eqb s) l.

(** [s[n:]] *)
Fixpoint str_drop (n : nat) (s : string) : string :=
  match n, s with
  | O, _ => s
  | S m, String _ t => str_drop m t
  | S _, EmptyString => EmptyString
  end.

(** [s.split(".", 1)]: the part before the first dot, and whether there
    is a second part. *)
Fixpoint split_dot (s : string) : string * bool :=
  match s with
  | EmptyString => (EmptyString, false)
  | String c t =>
      if Ascii.eqb c "."%char then (EmptyString, true)
      else let (h, more) := split_dot t in (String c h, more)
  end.

(** ** Frozen normalization layer *)

Record FrozenBatchNorm2d (float : Type) : Type := mkFrozenBatchNorm2d {
  weight : Tensor float;
  bias : Tensor float;
  running_mean : Tensor float;
  running_var : Tensor float
}.

Definition torch_full {A : Type} (n : Z) (v : A) : result (Tensor A) :=
  if n <? 0 then Raise RuntimeError
  else Ok {| shape := [n]; data := fun _ => v |}.

Definition FrozenBatchNorm2d_init {float : Type} `{Torch float} (n : Z)
  : result (FrozenBatchNorm2d float) :=
  w <- torch_full n fone ;;
  b <- torch_full n fzero ;;
  rm <- torch_full n fzero ;;
  rv <- torch_full n fone ;;
  Ok {| weight := w; bias := b; running_mean := rm; running_var := rv |}.

(** An entry of [error_msgs]: "size mismatch for key: copying a param with
    shape ... from checkpoint, the shape in current model is ...". *)
Inductive load_error : Type :=
| size_mismatch (key : string) (checkpoint current : list Z).

(** What [_load_from_state_dict] reads and writes, all by reference: the
    layer's buffers, the caller's dictionary and the three lists it appends
    to.  ([local_metadata] is passed on unread and left out.) *)
Record LoadState (float : Type) : Type := mkLoadState {
  ls_self : FrozenBatchNorm2d float;
  ls_state_dict : dict (Tensor float);
  ls_missing_keys : list string;
  ls_unexpected_keys : list string;
  ls_error_msgs : list load_error
}.

Definition local_state {float : Type} (self : FrozenBatchNorm2d float)
  : dict (Tensor float) :=
  [("weight"%string, weight self); ("bias"%string, bias self);
   ("running_mean"%string, running_mean self);
   ("running_var"%string, running_var self)].

Definition list_eqb (a b : list Z) : bool :=
  (length a =? length b)%nat && forallb (fun p => fst p =? snd p) (combine a b).

(** The method of [torch.nn.Module] that the layer calls through [super()],
    on a module with the four one-dimensional buffers above, no parameter,
    no submodule and no hook: each buffer whose key is present is copied
    from the dictionary if the shapes agree (a size mismatch is recorded
    otherwise), an absent key is recorded as missing under [strict]; then,
    under [strict], every key of the dictionary that starts with [prefix]
    and names none of the buffers is recorded as unexpected. *)
Fixpoint load_local {float : Type} (state_dict : dict (Tensor float))
  (prefix : string) (strict : bool) (locals : dict (Tensor float))
  (missing_keys : list string) (error_msgs : list load_error)
  : dict (Tensor float) * list string * list load_error :=
  match locals with
  | [] => ([], missing_keys, error_msgs)
  | (name, param) :: rest =>
      let key := (prefix ++ name)%string in
      match dict_get key state_dict with
      | Some input_param =>
          if negb (list_eqb (shape input_param) (shape param)) then
            let '(l, mk, em) :=
              load_local state_dict prefix strict rest missing_keys
                (error_msgs ++ [size_mismatch key (shape input_param) (shape param)]) in
            ((name, param) :: l, mk, em)
          else
            let '(l, mk, em) :=
              load_local state_dict prefix strict rest missing_keys error_msgs in
            ((name, input_param) :: l, mk, em)
      | None =>
          let '(l, mk, em) :=
            load_local state_dict prefix strict rest
              (if strict then missing_keys ++ [key] else missing_keys) error_msgs in
          ((name, param) :: l, mk, em)
      end
  end.

Definition is_unexpected (prefix extra_state_key : string) (modules locals : list string)
  (key : string) : bool :=
  String.prefix prefix key && negb (String.eqb key extra_state_key) &&
  (let (input_name, dotted) := split_dot (str_drop (String.length prefix) key) in
   if dotted then negb (str_in input_name modules)
   else negb (str_in input_name locals)).

Definition Module_load_from_state_dict {float : Type}
  (self : FrozenBatchNorm2d float) (state_dict : dict (Tensor float))
  (prefix : string) (strict : bool)
  (missing_keys unexpected_keys : list string) (error_msgs : list load_error)
  : LoadState float :=
  let '(l, mk, em) :=
    load_local state_dict prefix strict (local_state self) missing_keys error_msgs in
  let get := fun name old =>
    match dict_get name l with Some t => t | None => old end in
  let extra_state_key := (prefix ++ "_extra_state")%string in
  let uk :=
    if strict && dict_in extra_state_key state_dict
    then unexpected_keys ++ [extra_state_key] else unexpected_keys in
  let uk :=
    if strict
    then uk ++ filter (is_unexpected prefix extra_state_key [] (keys (local_state self)))
                 (keys state_dict)
    else uk in
  {| ls_self := {| weight := get "weight"%string (weight self);
                   bias := get "bias"%string (bias self);
                   running_mean := get "running_mean"%string (running_mean self);
                   running_var := get "running_var"%string (running_var self) |};
     ls_state_dict := state_dict;
     ls_missing_keys := mk;
     ls_unexpected_keys := uk;
     ls_error_msgs := em |}.

Definition FrozenBatchNorm2d_load_from_state_dict {float : Type}
  (self : FrozenBatchNorm2d float) (state_dict : dict (Tensor float))
  (prefix : string) (strict : bool)
  (missing_keys unexpected_keys : list string) (error_msgs : list load_error)
  : LoadState float :=
  let num_batches_tracked_key := (prefix ++ "num_batches_tracked")%string in
  let state_dict :=
    if dict_in num_batches_tracked_key state_dict
    then dict_del num_batches_tracked_key state_dict
    else state_dict in
  Module_load_from_state_dict self state_dict prefix strict
    missing_keys unexpected_keys error_msgs.

(** ** Base feature-extraction wrapper *)

(** [m[None]] *)
Definition unsqueeze0 {A : Type} (m : Tensor A) : Tensor A :=
  {| shape := 1 :: shape m; data := fun idx => data m (tl idx) |}.

(** [m.float()] and [m.to(torch.bool)] *)
Definition to_float {float : Type} `{Torch float} (m : Tensor bool) : Tensor float :=
  {| shape := shape m; data := fun idx => of_bool (data m idx) |}.

Definition to_torch_bool {float : Type} `{Torch float} (m : Tensor float) : Tensor bool :=
  {| shape := shape m; data := fun idx => to_bool (data m idx) |}.

(** [m[0]] *)
Definition getitem0 {A : Type} (m : Tensor A) : result (Tensor A) :=
  match shape m with
  | n :: rest =>
      if 0 <? n then Ok {| shape := rest; data := fun idx => data m (0 :: idx) |}
      else Raise IndexError
  | [] => Raise IndexError
  end.

Fixpoint nearest_index {float : Type} `{Torch float}
  (spatial size idx : list Z) : list Z :=
  match spatial, size, idx with
  | i :: spatial', o :: size', d :: idx' =>
      nearest_src i o d :: nearest_index spatial' size' idx'
  | _, _, _ => []
  end.

(** [F.interpolate(input, size=size)] in the default nearest mode: the
    input is (batch, channels, spatial...), with one to three spatial
    dimensions, as many as [size] has entries; the output keeps batch and
    channels and has spatial shape [size]. *)
Definition F_interpolate {float : Type} `{Torch float}
  (input : Tensor float) (size : list Z) : result (Tensor float) :=
  match shape input with
  | n :: c :: spatial =>
      if negb (length size =? length spatial)%nat then Raise ValueError
      else if negb ((1 <=? length spatial)%nat && (length spatial <=? 3)%nat)
      then Raise (NotImplementedError "Only 3D, 4D and 5D input Tensors supported")
      else if forallb (Z.ltb 0) spatial && forallb (Z.ltb 0) size && (0 <? c)
      then Ok {| shape := n :: c :: size;
                 data := fun idx =>
                   match idx with
                   | b :: ch :: rest => data input (b :: ch :: nearest_index spatial size rest)
                   | _ => data input idx
                   end |}
      else Raise RuntimeError
  | _ => Raise ValueError
  end.

Record TorchParameter : Type := mkTorchParameter {
  requires_grad : bool
}.

(** [parameter.requires_grad_(flag)] *)
Definition requires_grad_ (p : TorchParameter) (flag : bool) : TorchParameter :=
  {| requires_grad := flag |}.

(** What this file uses of the wrapped network: its parameters by name
    ([named_parameters()]), and torchvision's [IntermediateLayerGetter]
    over it, which raises when a requested layer is not a child of the
    network and otherwise gives the function from an image batch to the
    requested feature maps, keyed by their new names, shallow to deep. *)
Record NNModule (float : Type) : Type := mkNNModule {
  named_parameters : dict TorchParameter;
  IntermediateLayerGetter :
    dict string -> result (Tensor float -> result (dict (Tensor float)))
}.

Record BackboneBase (float : Type) : Type := mkBackboneBase {
  bb_parameters : dict TorchParameter;
  body : Tensor float -> result (dict (Tensor float));
  num_channels : Z
}.

Definition default_layers_used : list string :=
  ["layer1"; "layer2"; "layer3"; "layer4"]%string.

(** [layers_used] after the default for [None] has been filled in *)
Definition layers_used_or_default (layers_used : option (list string)) : list string :=
  match layers_used with
  | None => default_layers_used
  | Some l => l
  end.

(** [any(layer in name for layer in layers_used)] *)
Definition in_layers (layers_used : list string) (name : string) : bool :=
  existsb (fun layer => contains layer name) layers_used.

(** One turn of the loop over [backbone.named_parameters()]; the flag is
    set on the parameter itself, which the wrapped network shares. *)
Definition freeze (train_backbone : bool) (layers_used : list string)
  (entry : string * TorchParameter) : string * TorchParameter :=
  let (name, parameter) := entry in
  if negb train_backbone || negb (in_layers layers_used name)
  then (name, requires_grad_ parameter false)
  else (name, parameter).

Definition BackboneBase_init {float : Type} (backbone : NNModule float)
  (train_backbone : bool) (num_channels : Z) (return_interm_layers : bool)
  (layers_used : option (list string)) : result (BackboneBase float) :=
  let layers_used := layers_used_or_default layers_used in
  let parameters := map (freeze train_backbone layers_used) (named_parameters backbone) in
  let return_layers :=
    if return_interm_layers
    then [("layer1", "0"); ("layer2", "1"); ("layer3", "2"); ("layer4", "3")]%string
    else [("layer4", "0")]%string in
  body <- IntermediateLayerGetter backbone return_layers ;;
  Ok {| bb_parameters := parameters; body := body; num_channels := num_channels |}.

Fixpoint BackboneBase_forward_loop {float : Type} `{Torch float}
  (tensor_list : NestedTensor float) (xs : dict (Tensor float))
  (out : dict (NestedTensor float)) : result (dict (NestedTensor float)) :=
  match xs with
  | [] => Ok out
  | (name, x) :: rest =>
      match mask tensor_list with
      | None => Raise AssertionError
      | Some m =>
          r <- F_interpolate (to_float (unsqueeze0 m)) (last2 (shape x)) ;;
          mask <- getitem0 (to_torch_bool r) ;;
          BackboneBase_forward_loop tensor_list rest
            (dict_set name (mkNestedTensor x (Some mask)) out)
      end
  end.

Definition BackboneBase_forward {float : Type} `{Torch float}
  (self : BackboneBase float) (tensor_list : NestedTensor float)
  : result (dict (NestedTensor float)) :=
  xs <- body self (tensors tensor_list) ;;
  BackboneBase_forward_loop tensor_list xs [].

(** ** Construction entry point and the variants it builds *)

Record Args : Type := mkArgs {
  model : string;
  backbone : string;
  lr_backbone : Q;
  masks : bool;
  dilation : bool;
  interm_layer : option string;
  patch_kernel : Z;
  patch_stride : Z;
  patch_dilation : Z
}.

(** What the entry point calls outside this file: the model catalog
    ([getattr(torchvision.models, name)], absent names give [None]; a
    constructor takes [replace_stride_with_dilation] and [pretrained], the
    normalization layer being the frozen one above), [is_main_process()],
    [build_position_encoding] of models/position_encoding.py (taken as
    given: it is not among the sources), and Python's [int] on strings. *)
Record Env (float : Type) : Type := mkEnv {
  torchvision_models : string -> option (list bool -> bool -> result (NNModule float));
  is_main_process : bool;
  build_position_encoding :
    Args -> result (NestedTensor float -> result (Tensor float));
  py_int : string -> result Z
}.

Definition Backbone_init {float : Type} (env : Env float) (name : string)
  (train_backbone return_interm_layers dilation : bool)
  (layers_used : option (list string)) : result (BackboneBase float) :=
  match torchvision_models env name with
  | None => Raise AttributeError
  | Some constructor =>
      backbone <- constructor [false; false; dilation] (is_main_process env) ;;
      let num_channels :=
        if str_in name ["resnet18"; "resnet34"]%string then 512 else 2048 in
      BackboneBase_init backbone train_backbone num_channels return_interm_layers
        layers_used
  end.

Record IntermediateLayerGetterBackbone (float : Type) : Type := mkILGB {
  ilgb_layer : string;
  ilgb_num_channels : Z;
  ilgb_backbone : BackboneBase float
}.

(** [l[i]] on a Python list: negative indices count from the end. *)
Definition list_getitem (l : list Z) (i : Z) : result Z :=
  let n := Z.of_nat (length l) in
  if (- n <=? i) && (i <? n) then Ok (nthZ l (Z.to_nat (i mod n)))
  else Raise IndexError.

Definition IntermediateLayerGetterBackbone_init {float : Type} (env : Env float)
  (layer : option string) (backbone : BackboneBase float)
  : result (IntermediateLayerGetterBackbone float) :=
  let self_layer := match layer with Some l => l | None => "0"%string end in
  nc <- match layer with
        | Some l => i <- py_int env l ;; list_getitem [256; 512; 1024; 2048] i
        | None => Ok (num_channels backbone)
        end ;;
  Ok {| ilgb_layer := self_layer; ilgb_num_channels := nc; ilgb_backbone := backbone |}.

Definition IntermediateLayerGetterBackbone_forward {float : Type} `{Torch float}
  (self : IntermediateLayerGetterBackbone float) (tensor_list : NestedTensor float)
  : result (NestedTensor float) :=
  xs <- BackboneBase_forward (ilgb_backbone self) tensor_list ;;
  match dict_get (ilgb_layer self) xs with
  | Some x => Ok x
  | None => Raise KeyError
  end.

Record Joiner (float : Type) : Type := mkJoiner {
  j_backbone : BackboneBase float;
  j_position_embedding : NestedTensor float -> result (Tensor float);
  j_num_channels : option Z
}.

Fixpoint Joiner_forward_loop {float : Type}
  (position_embedding : NestedTensor float -> result (Tensor float))
  (xs : dict (NestedTensor float)) (out : list (NestedTensor float))
  (pos : list (Tensor float))
  : result (list (NestedTensor float) * list (Tensor float)) :=
  match xs with
  | [] => Ok (out, pos)
  | (name, x) :: rest =>
      p <- position_embedding x ;;
      Joiner_forward_loop position_embedding rest (out ++ [x]) (pos ++ [p])
  end.

Definition Joiner_forward {float : Type} `{Torch float}
  (self : Joiner float) (tensor_list : NestedTensor float)
  : result (list (NestedTensor float) * list (Tensor float)) :=
  xs <- BackboneBase_forward (j_backbone self) tensor_list ;;
  Joiner_forward_loop (j_position_embedding self) xs [] [].

Inductive Model (float : Type) : Type :=
| JoinerModel (m : Joiner float)
| NoBackboneModel (m : NoBackbone)
| PatchBackboneModel (m : PatchBackbone)
| IntermediateLayerGetterBackboneModel (m : IntermediateLayerGetterBackbone float).

(** [range(a, b)] *)
Definition range (a b : Z) : list Z :=
  map (fun k => a + Z.of_nat k) (seq 0 (Z.to_nat (b - a))).

Definition str_of_int (i : Z) : string :=
  DecimalString.NilZero.string_of_int (Z.to_int i).

(** [bool(s)] on an optional string *)
Definition truthy (s : option string) : bool :=
  match s with
  | None => false
  | Some EmptyString => false
  | Some _ => true
  end.

Definition build_backbone {float : Type} (env : Env float) (args : Args)
  : result (Model float) :=
  if String.eqb (model args) "detr" then
    let train_backbone := negb (Qle_bool (lr_backbone args) 0) in
    let return_interm_layers := masks args in
    backbone <- Backbone_init env (backbone args) train_backbone return_interm_layers
                  (dilation args) None ;;
    position_embedding <- build_position_encoding env args ;;
    let model := mkJoiner backbone position_embedding None in
    let model := mkJoiner (j_backbone model) (j_position_embedding model)
                   (Some (num_channels backbone)) in
    Ok (JoinerModel model)
  else
    if String.eqb (backbone args) "n/a" then
      let backbone := NoBackbone_init in
      let backbone := {| nb_num_channels := 3 |} in
      Ok (NoBackboneModel float backbone)
    else if String.eqb (backbone args) "patch" then
      let backbone :=
        PatchBackbone_init (patch_kernel args) (patch_stride args) (patch_dilation args) in
      Ok (PatchBackboneModel float backbone)
    else if String.eqb (backbone args) "resnet50" then
      let train_backbone := negb (Qle_bool (lr_backbone args) 0) in
      let return_interm_layers := truthy (interm_layer args) in
      layers_used <-
        (if return_interm_layers then
           match interm_layer args with
           | Some l =>
               n <- py_int env l ;;
               Ok (Some (map (fun i => ("layer" ++ str_of_int i)%string) (range 1 (n + 2))))
           | None => Ok None
           end
         else Ok None) ;;
      backbone <- Backbone_init env (backbone args) train_backbone return_interm_layers
                    (dilation args) layers_used ;;
      m <- IntermediateLayerGetterBackbone_init env (interm_layer args) backbone ;;
      Ok (IntermediateLayerGetterBackboneModel m)
    else
      Raise (NotImplementedError
               ("Backbone " ++ backbone args ++ " not implemented")%string).

(** ** Floating-point numbers of the framework

    A positive rational [n / d] rounded to the nearest number with a
    mantissa of [prec] bits, ties to even, as IEEE 754 division and
    multiplication round: the result is [m * 2 ^ e], given as [(m, e)].
    (Exponent range not modelled: the values met here stay normal.) *)
Definition round_nearest_even (prec n d : Z) : Z * Z :=
  if n =? 0 then (0, 0)
  else
    let t := Z.log2 n - Z.log2 d in
    let e := if d * 2 ^ Z.max t 0 <=? n * 2 ^ Z.max (- t) 0
             then t - (prec - 1) else t - prec in
    let num := n * 2 ^ Z.max (- e) 0 in
    let den := d * 2 ^ Z.max e 0 in
    let m := num / den in
    let r := num mod den in
    if (den <? 2 * r) || ((den =? 2 * r) && Z.odd m) then (m + 1, e) else (m, e).

(** Single precision: conversion of a size or index, division,
    multiplication and [floorf]. *)
Definition f32_of_int (z : Z) : Z * Z := round_nearest_even 24 z 1.

Definition f32_div (x y : Z * Z) : Z * Z :=
  let e := snd x - snd y in
  round_nearest_even 24 (fst x * 2 ^ Z.max e 0) (fst y * 2 ^ Z.max (- e) 0).

Definition f32_mul (x y : Z * Z) : Z * Z :=
  let e := snd x + snd y in
  round_nearest_even 24 (fst x * fst y * 2 ^ Z.max e 0) (2 ^ Z.max (- e) 0).

Definition floorf (x : Z * Z) : Z :=
  if 0 <=? snd x then fst x * 2 ^ snd x else fst x / 2 ^ (- snd x).

(** The source index of the nearest-neighbour kernel of [F.interpolate] on
    a single-precision input, no scale factor given:
    [min(floorf(dst_index * scale), input_size - 1)] with
    [scale = (float) input_size / output_size], all in single precision. *)
Definition nearest_float32 (input_size output_size dst_index : Z) : Z :=
  let scale := f32_div (f32_of_int input_size) (f32_of_int output_size) in
  Z.min (floorf (f32_mul (f32_of_int dst_index) scale)) (input_size - 1).

(** [math.ceil(a / b)] as Python evaluates it on integers [a >= 0] and
    [b > 0]: the quotient correctly rounded to double precision, then
    rounded up to an integer. *)
Definition float_ceil (x : Z * Z) : Z :=
  if 0 <=? snd x then fst x * 2 ^ snd x else - ((- fst x) / 2 ^ (- snd x)).

Definition float64_ceil_div (a b : Z) : Z :=
  float_ceil (round_nearest_even 53 a b).

(** ** Numerics for running the model on concrete inputs: integers stand
    for the floating-point elements (no arithmetic is done on them in the
    code modelled here); the nearest-neighbour index is the
    single-precision one above. *)
#[export] Instance TorchZ : Torch Z := {|
  fzero := 0;
  fone := 1;
  of_bool := fun b => if b then 1 else 0;
  to_bool := fun z => negb (z =? 0);
  nearest_src := nearest_float32
|}.

Definition zeros (sh : list Z) : Tensor Z :=
  {| shape := sh; data := fun _ => 0 |}.

Definition all_true (sh : list Z) : Tensor bool :=
  {| shape := sh; data := fun _ => true |}.

(** ** Predicates used to state the properties *)

Definition num_batches_tracked_key (prefix : string) : string :=
  (prefix ++ "num_batches_tracked")%string.

Definition buffer_names : list string :=
  ["weight"; "bias"; "running_mean"; "running_var"]%string.

(** The shapes of a layer built for [n] channels. *)
Definition has_size {float : Type} (self : FrozenBatchNorm2d float) (n : Z) : Prop :=
  shape (weight self) = [n] /\ shape (bias self) = [n] /\
  shape (running_mean self) = [n] /\ shape (running_var self) = [n].

(** A state saved from a batch-normalization layer of [n] channels under
    [prefix]: the four buffers are there with [n] entries each, and nothing
    else is stored under the prefix but, possibly, the tracking counter. *)
Definition saved_state {float : Type} (prefix : string) (n : Z)
  (state_dict : dict (Tensor float)) : Prop :=
  (forall name, In name buffer_names ->
     exists t, dict_get (prefix ++ name)%string state_dict = Some t /\ shape t = [n]) /\
  (forall k, In k (keys state_dict) -> String.prefix prefix k = true ->
     In k (map (String.append prefix) ("num_batches_tracked"%string :: buffer_names))).

Definition mask_fits {float : Type} (o : NestedTensor float) : Prop :=
  exists m, mask o = Some m /\ last2 (shape m) = last2 (shape (tensors o)).

(** ** Concrete inputs *)

(** A network with a single stage at one eighth of the resolution. *)
Definition one_stage : BackboneBase Z :=
  {| bb_parameters := [];
     body := fun x =>
       match shape x with
       | [b; c; h; w] => Ok [("0"%string, zeros [b; 2048; h / 8; w / 8])]
       | _ => Raise RuntimeError
       end;
     num_channels := 2048 |}.

(** A network with one trainable and one already frozen parameter in the
    first stage, and one trainable parameter outside the stages. *)
Definition small_net : NNModule Z :=
  {| named_parameters :=
       [("conv1.weight"%string, mkTorchParameter true);
        ("layer1.0.conv1.weight"%string, mkTorchParameter true);
        ("layer1.0.conv2.weight"%string, mkTorchParameter false)];
     IntermediateLayerGetter := fun _ => Ok (body one_stage) |}.

Definition small_wrapper : BackboneBase Z :=
  {| bb_parameters :=
       [("conv1.weight"%string, mkTorchParameter false);
        ("layer1.0.conv1.weight"%string, mkTorchParameter true);
        ("layer1.0.conv2.weight"%string, mkTorchParameter false)];
     body := body one_stage;
     num_channels := 2048 |}.

(** A catalog that knows no architecture, for runs that never reach it. *)
Definition empty_env : Env Z :=
  {| torchvision_models := fun _ => None;
     is_main_process := true;
     build_position_encoding := fun _ => Raise ValueError;
     py_int := fun _ => Raise ValueError |}.

Definition args_of (model backbone : string) : Args :=
  {| model := model; backbone := backbone; lr_backbone := 0%Q; masks := false;
     dilation := false; interm_layer := None;
     patch_kernel := 3; patch_stride := 1; patch_dilation := 1 |}.

Definition vec (l : list Z) : Tensor Z :=
  {| shape := [Z.of_nat (length l)];
     data := fun idx => nthZ l (Z.to_nat (hd 0 idx)) |}.

(** A layer for two channels, as [FrozenBatchNorm2d(2)] builds it. *)
Definition bn1 : FrozenBatchNorm2d Z :=
  {| weight := vec [1; 1]; bias := vec [0; 0];
     running_mean := vec [0; 0]; running_var := vec [1; 1] |}.

(** A checkpoint of a network whose layer bn1 is a batch normalization
    over two channels, saved with or without the tracking counter. *)
Definition checkpoint (counter : bool) : dict (Tensor Z) :=
  [("conv1.weight"%string, zeros [2; 3; 7; 7]);
   ("bn1.weight"%string, vec [2; 3]);
   ("bn1.bias"%string, vec [5; 7]);
   ("bn1.running_mean"%string, vec [1; 4]);
   ("bn1.running_var"%string, vec [9; 16])]
  ++ (if counter then [("bn1.num_batches_tracked"%string, zeros [])] else [])
  ++ [("fc.weight"%string, zeros [10; 2])].

Definition batch : NestedTensor Z :=
  mkNestedTensor (zeros [2; 3; 32; 48]) (Some (all_true [2; 32; 48])).

(** ** Further concrete inputs *)

(** An image whose pixel at an index is the index's row-major position. *)
Definition ramp (sh : list Z) : Tensor Z :=
  {| shape := sh; data := ravel sh |}.

(** A network with one parameter per stage, giving every requested stage
    at a quarter of the resolution. *)
Definition toy_net : NNModule Z :=
  {| named_parameters :=
       [("conv1.weight"%string, mkTorchParameter true);
        ("layer1.0.conv1.weight"%string, mkTorchParameter true);
        ("layer2.0.conv1.weight"%string, mkTorchParameter true);
        ("layer3.0.conv1.weight"%string, mkTorchParameter true);
        ("layer4.0.conv1.weight"%string, mkTorchParameter true);
        ("fc.weight"%string, mkTorchParameter true)];
     IntermediateLayerGetter := fun return_layers =>
       if forallb (fun e => str_in (fst e) default_layers_used) return_layers
       then Ok (fun x =>
                  match shape x with
                  | [b; c; h; w] =>
                      Ok (map (fun e => (snd e, zeros [b; 256; h / 4; w / 4]))
                            return_layers)
                  | _ => Raise RuntimeError
                  end)
       else Raise ValueError |}.

Definition digit (s : string) : result Z :=
  if String.eqb s "0" then Ok 0
  else if String.eqb s "1" then Ok 1
  else if String.eqb s "2" then Ok 2
  else if String.eqb s "3" then Ok 3
  else Raise ValueError.

Definition toy_env : Env Z :=
  {| torchvision_models := fun name =>
       if str_in name ["resnet18"; "resnet34"; "resnet50"; "resnet101"]%string
       then Some (fun _ _ => Ok toy_net)
       else None;
     is_main_process := true;
     build_position_encoding := fun _ => Ok (fun x => Ok (tensors x));
     py_int := digit |}.

Definition toy_args (model backbone : string) (lr_backbone : Q)
  (interm_layer : option string) : Args :=
  {| model := model; backbone := backbone; lr_backbone := lr_backbone;
     masks := true; dilation := false; interm_layer := interm_layer;
     patch_kernel := 3; patch_stride := 2; patch_dilation := 1 |}.

Definition four_stages : dict (Tensor Z) :=
  [("0"%string, zeros [2; 256; 8; 12]); ("1"%string, zeros [2; 256; 8; 12]);
   ("2"%string, zeros [2; 256; 8; 12]); ("3"%string, zeros [2; 256; 8; 12])].

Definition four_stage : BackboneBase Z :=
  {| bb_parameters := named_parameters toy_net;
     body := fun x =>
       match shape x with
       | [b; c; h; w] =>
           Ok (map (fun e => (snd e, zeros [b; 256; h / 4; w / 4]))
                 [("layer1", "0"); ("layer2", "1"); ("layer3", "2");
                  ("layer4", "3")]%string)
       | _ => Raise RuntimeError
       end;
     num_channels := 2048 |}.

Definition toy_joiner : Joiner Z :=
  {| j_backbone := four_stage;
     j_position_embedding := fun x => Ok (tensors x);
     j_num_channels := Some 2048 |}.

Definition selector (layer : string) : IntermediateLayerGetterBackbone Z :=
  {| ilgb_layer := layer; ilgb_num_channels := 1024; ilgb_backbone := four_stage |}.

(** A mask that is true in one column only, a network with a single
    14 by 14 stage, and a 62 by 62 batch masked in column 30. *)
Definition mask_column (sh : list Z) (col : Z) : Tensor bool :=
  {| shape := sh; data := fun idx => nthZ idx 2 =? col |}.

Definition stage_14 : BackboneBase Z :=
  {| bb_parameters := [];
     body := fun x =>
       match shape x with
       | [b; c; h; w] => Ok [("0"%string, zeros [b; 2048; 14; 14])]
       | _ => Raise RuntimeError
       end;
     num_channels := 2048 |}.

Definition batch_62 : NestedTensor Z :=
  mkNestedTensor (zeros [1; 3; 62; 62]) (Some (mask_column [1; 62; 62] 30)).

(** * Properties *)

(** ** Fallible computations *)

Lemma bind_Ok {A B : Type} (c : result A) (k : A -> result B) (b : B) :
  bind c k = Ok b -> exists a, c = Ok a /\ k a = Ok b.
Proof.
  destruct c as [a | e]; simpl; intro E.
  - exists a. split; [reflexivity | exact E].
  - discriminate E.
Qed.

Ltac inv_bind H :=
  let a := fresh "a" in
  let Ha := fresh "Ha" in
  apply bind_Ok in H; destruct H as [a [Ha H]].

(** ** Identity variant *)

(** C5, as the code has it: the identity variant returns its input
    unchanged, whatever the input, and the channel count it reports is 3
    whatever the input: on an input with [c] channels the reported count is
    the channel count of what the forward returns exactly when [c] is 3. *)
Theorem NoBackbone_forward_identity :
  forall (float : Type) (tensor_list : NestedTensor float),
    NoBackbone_forward NoBackbone_init tensor_list = tensor_list /\
    nb_num_channels NoBackbone_init = 3 /\
    forall b c h w,
      shape (tensors tensor_list) = [b; c; h; w] ->
      (nthZ (shape (tensors (NoBackbone_forward NoBackbone_init tensor_list))) 1
       = nb_num_channels NoBackbone_init <-> c = 3).
Proof.
  intros float tensor_list.
  split; [reflexivity |]. split; [reflexivity |].
  intros b c h w Hsh. unfold NoBackbone_forward, Identity_forward.
  rewrite Hsh. cbn [nthZ nth NoBackbone_init nb_num_channels]. tauto.
Qed.

Lemma NoBackbone_forward_identity_witness :
  NoBackbone_forward NoBackbone_init (mkNestedTensor (zeros [2; 3; 4; 6]) None)
  = mkNestedTensor (zeros [2; 3; 4; 6]) None /\
  nthZ (shape (tensors (NoBackbone_forward NoBackbone_init
                          (mkNestedTensor (zeros [2; 3; 4; 6]) None)))) 1
  = nb_num_channels NoBackbone_init.
Proof.
  destruct (@NoBackbone_forward_identity Z (mkNestedTensor (zeros [2; 3; 4; 6]) None))
    as [Hid [_ Hch]].
  split; [exact Hid |].
  apply (proj2 (Hch 2 3 4 6 eq_refl)). reflexivity.
Defined.

(** C5 as worded fails: on a one-channel image the identity variant returns
    the image, with its one channel, while the count it reports is 3. *)
Lemma NoBackbone_num_channels_grayscale :
  NoBackbone_forward NoBackbone_init (mkNestedTensor (zeros [1; 1; 4; 4]) None)
  = mkNestedTensor (zeros [1; 1; 4; 4]) None /\
  nthZ (shape (tensors (mkNestedTensor (zeros [1; 1; 4; 4]) None))) 1 = 1 /\
  nb_num_channels NoBackbone_init
  <> nthZ (shape (tensors (mkNestedTensor (zeros [1; 1; 4; 4]) None))) 1.
Proof.
  split; [reflexivity |]. split; [reflexivity |].
  intro E. vm_compute in E. discriminate E.
Qed.

(** The entry point builds the identity variant for the name n/a of a
    model kind other than detr, reporting 3 channels as well. *)
Lemma build_backbone_no_backbone (float : Type) (env : Env float) (args : Args) :
  String.eqb (model args) "detr" = false ->
  backbone args = "n/a"%string ->
  exists m, build_backbone env args = Ok (NoBackboneModel float m) /\
            nb_num_channels m = 3.
Proof.
  intros Hm Hb. unfold build_backbone. rewrite Hm, Hb. simpl.
  eexists. split; reflexivity.
Qed.

(** ** Base wrapper: a missing mask *)

(** C6: when the input has no mask and the wrapped network yields at least
    one stage, the forward of the base wrapper raises an assertion error. *)
Theorem BackboneBase_forward_mask_absent :
  forall (float : Type) (T : Torch float) (self : BackboneBase float)
         (tensor_list : NestedTensor float) (xs : dict (Tensor float)),
    mask tensor_list = None ->
    body self (tensors tensor_list) = Ok xs ->
    xs <> [] ->
    BackboneBase_forward self tensor_list = Raise AssertionError.
Proof.
  intros float T self tensor_list xs Hmask Hbody Hne.
  unfold BackboneBase_forward. rewrite Hbody. simpl.
  destruct xs as [| [name x] rest]; [contradiction Hne; reflexivity |].
  simpl. rewrite Hmask. reflexivity.
Qed.

Lemma BackboneBase_forward_mask_absent_witness :
  BackboneBase_forward one_stage (mkNestedTensor (zeros [2; 3; 32; 48]) None)
  = Raise AssertionError.
Proof.
  apply (@BackboneBase_forward_mask_absent Z TorchZ one_stage
           (mkNestedTensor (zeros [2; 3; 32; 48]) None)
           [("0"%string, zeros [2; 2048; 4; 6])]).
  - reflexivity.
  - reflexivity.
  - discriminate.
Defined.

(** ** Patch backbone: the mask *)

(** C3: whenever the patch backbone's forward returns, the mask of the
    output is the mask of the input; and this does happen with a stride
    above 1 and a feature map whose spatial size differs from the mask's. *)
Theorem PatchBackbone_forward_mask_unchanged :
  forall (float : Type) (T : Torch float),
    (forall (self : PatchBackbone) (tensor_list output : NestedTensor float),
        PatchBackbone_forward self tensor_list = Ok output ->
        mask output = mask tensor_list) /\
    (exists (self : PatchBackbone) (tensor_list output : NestedTensor float)
            (m : Tensor bool),
        1 < pb_stride self /\
        PatchBackbone_forward self tensor_list = Ok output /\
        mask tensor_list = Some m /\
        mask output = Some m /\
        last2 (shape m) <> last2 (shape (tensors output))).
Proof.
  intros float T. split.
  - intros self tensor_list output E. unfold PatchBackbone_forward in E.
    inv_bind E. injection E as <-. reflexivity.
  - exists (PatchBackbone_init 3 2 1).
    exists (mkNestedTensor (mkTensor [1; 3; 4; 4] (fun _ => fzero))
              (Some (all_true [1; 4; 4]))).
    eexists. exists (all_true [1; 4; 4]).
    split; [reflexivity |].
    split; [reflexivity |].
    split; [reflexivity |].
    split; [reflexivity |].
    intro E. vm_compute in E. discriminate E.
Qed.

Lemma PatchBackbone_forward_mask_unchanged_witness :
  exists output,
    PatchBackbone_forward (PatchBackbone_init 3 2 1)
      (mkNestedTensor (zeros [1; 3; 4; 4]) (Some (all_true [1; 4; 4]))) = Ok output /\
    mask output = Some (all_true [1; 4; 4]).
Proof.
  eexists. split.
  - reflexivity.
  - apply (proj1 (@PatchBackbone_forward_mask_unchanged Z TorchZ)
             (PatchBackbone_init 3 2 1)
             (mkNestedTensor (zeros [1; 3; 4; 4]) (Some (all_true [1; 4; 4])))).
    reflexivity.
Defined.

(** ** Construction entry point: unrecognized names *)

(** C8: for a model kind other than detr, a backbone name that is none of
    n/a, patch and resnet50 makes the entry point raise
    [NotImplementedError] and return no model; for the kind detr, a name
    the model catalog does not have makes the construction raise as well. *)
Theorem build_backbone_unrecognized :
  forall (float : Type) (env : Env float) (args : Args),
    (model args <> "detr"%string ->
     ~ In (backbone args) ["n/a"; "patch"; "resnet50"]%string ->
     build_backbone env args =
     Raise (NotImplementedError
              ("Backbone " ++ backbone args ++ " not implemented")%string)) /\
    (model args = "detr"%string ->
     torchvision_models env (backbone args) = None ->
     build_backbone env args = Raise AttributeError).
Proof.
  intros float env args. split.
  - intros Hm Hb. unfold build_backbone.
    destruct (String.eqb_spec (model args) "detr") as [E | _]; [contradiction |].
    destruct (String.eqb_spec (backbone args) "n/a") as [E | _];
      [exfalso; apply Hb; rewrite E; simpl; auto |].
    destruct (String.eqb_spec (backbone args) "patch") as [E | _];
      [exfalso; apply Hb; rewrite E; simpl; auto |].
    destruct (String.eqb_spec (backbone args) "resnet50") as [E | _];
      [exfalso; apply Hb; rewrite E; simpl; auto |].
    reflexivity.
  - intros Hm Hc. unfold build_backbone. rewrite Hm. simpl.
    unfold Backbone_init. rewrite Hc. reflexivity.
Qed.

Lemma build_backbone_unrecognized_witness :
  build_backbone empty_env (args_of "perceiver" "resnet101")
  = Raise (NotImplementedError "Backbone resnet101 not implemented") /\
  build_backbone empty_env (args_of "detr" "resnet1") = Raise AttributeError.
Proof.
  split.
  - apply (proj1 (build_backbone_unrecognized empty_env (args_of "perceiver" "resnet101"))).
    + discriminate.
    + simpl. intros [E | [E | [E | []]]]; discriminate E.
  - apply (proj2 (build_backbone_unrecognized empty_env (args_of "detr" "resnet1"))).
    + reflexivity.
    + reflexivity.
Defined.

(** ** Base wrapper: which parameters keep their gradients *)

Lemma freeze_spec (train_backbone : bool) (layers_used : list string)
  (name : string) (p : TorchParameter) :
  freeze train_backbone layers_used (name, p) =
  (name, {| requires_grad :=
              requires_grad p && (train_backbone && in_layers layers_used name) |}).
Proof.
  unfold freeze, in_layers, requires_grad_.
  destruct train_backbone; simpl.
  - destruct (existsb _ layers_used); simpl.
    + destruct p as [g]. simpl. rewrite andb_true_r. reflexivity.
    + rewrite andb_false_r. reflexivity.
  - rewrite andb_false_r. reflexivity.
Qed.

Lemma BackboneBase_init_parameters (float : Type) (backbone : NNModule float)
  (train_backbone : bool) (num_channels : Z) (return_interm_layers : bool)
  (layers_used : option (list string)) (self : BackboneBase float) :
  BackboneBase_init backbone train_backbone num_channels return_interm_layers layers_used
  = Ok self ->
  bb_parameters self =
  map (freeze train_backbone (layers_used_or_default layers_used))
    (named_parameters backbone).
Proof.
  unfold BackboneBase_init. intro E. inv_bind E.
  injection E as <-. simpl. destruct layers_used; reflexivity.
Qed.

(** C7, as the code has it: after construction a parameter has gradients
    enabled exactly when it had them enabled before, fine-tuning is enabled
    and its name contains one of the configured stage identifiers (the four
    stages by default).  So with fine-tuning disabled every parameter is
    gradient-disabled; with fine-tuning enabled every parameter whose name
    contains no configured identifier is gradient-disabled, and on a network
    whose parameters all had gradients enabled they stay enabled exactly
    for the names that contain one. *)
Theorem BackboneBase_init_requires_grad :
  forall (float : Type) (backbone : NNModule float)
         (train_backbone : bool) (num_channels : Z) (return_interm_layers : bool)
         (layers_used : option (list string)) (self : BackboneBase float),
    BackboneBase_init backbone train_backbone num_channels return_interm_layers
      layers_used = Ok self ->
    let used := layers_used_or_default layers_used in
    Forall2 (fun before after =>
               fst after = fst before /\
               requires_grad (snd after) =
               requires_grad (snd before) && (train_backbone && in_layers used (fst before)))
      (named_parameters backbone) (bb_parameters self) /\
    (train_backbone = false ->
     forall name p, In (name, p) (bb_parameters self) -> requires_grad p = false) /\
    (train_backbone = true ->
     forall name p, In (name, p) (bb_parameters self) ->
                    in_layers used name = false -> requires_grad p = false) /\
    (train_backbone = true ->
     (forall name p, In (name, p) (named_parameters backbone) -> requires_grad p = true) ->
     forall name p, In (name, p) (bb_parameters self) ->
                    requires_grad p = in_layers used name).
Proof.
  intros float backbone train_backbone num_channels return_interm_layers
    layers_used self E used.
  apply BackboneBase_init_parameters in E. fold used in E. rewrite E.
  assert (Hin : forall name p,
             In (name, p) (map (freeze train_backbone used) (named_parameters backbone)) ->
             exists q, In (name, q) (named_parameters backbone) /\
                       requires_grad p =
                       requires_grad q && (train_backbone && in_layers used name)).
  { intros name p Hp. apply in_map_iff in Hp. destruct Hp as [[n q] [Hf Hq]].
    rewrite freeze_spec in Hf. injection Hf as <- <-.
    exists q. split; [exact Hq | reflexivity]. }
  split; [| split; [| split]].
  - clear Hin E. induction (named_parameters backbone) as [| [n q] l IH]; cbn [map].
    + constructor.
    + constructor; [| exact IH].
      rewrite freeze_spec. simpl. split; reflexivity.
  - intros Ht name p Hp. destruct (Hin name p Hp) as [q [_ ->]].
    rewrite Ht. simpl. apply andb_false_r.
  - intros _ name p Hp Hn. destruct (Hin name p Hp) as [q [_ ->]].
    rewrite Hn. rewrite andb_false_r. apply andb_false_r.
  - intros Ht Hall name p Hp. destruct (Hin name p Hp) as [q [Hq ->]].
    rewrite (Hall name q Hq), Ht. reflexivity.
Qed.

Lemma BackboneBase_init_requires_grad_witness :
  BackboneBase_init small_net true 2048 false None = Ok small_wrapper /\
  forall name p, In (name, p) (bb_parameters small_wrapper) ->
                 in_layers default_layers_used name = false ->
                 requires_grad p = false.
Proof.
  split.
  - reflexivity.
  - apply (@BackboneBase_init_requires_grad Z small_net true 2048 false None
             small_wrapper eq_refl).
    reflexivity.
Defined.

(** C7 as worded fails: with fine-tuning enabled and the default stages, a
    parameter of the first stage that was frozen before the wrapper is
    built is still gradient-disabled afterwards, though its name contains
    layer1. *)
Lemma BackboneBase_init_keeps_frozen_parameter :
  exists self name p,
    BackboneBase_init small_net true 2048 false None = Ok self /\
    In (name, p) (bb_parameters self) /\
    in_layers default_layers_used name = true /\
    requires_grad p = false.
Proof.
  eexists. exists "layer1.0.conv2.weight"%string, (mkTorchParameter false).
  split; [reflexivity |].
  split; [simpl; auto |].
  split; reflexivity.
Qed.

(** ** Dictionaries and strings *)

Lemma dict_in_iff {V : Type} (k : string) (d : dict V) :
  dict_in k d = true <-> In k (keys d).
Proof.
  unfold dict_in, keys. rewrite existsb_exists, in_map_iff. split.
  - intros [e [He Hk]]. apply String.eqb_eq in Hk. exists e. split; assumption.
  - intros [e [Hk He]]. exists e. split; [exact He | apply String.eqb_eq; exact Hk].
Qed.

Lemma keys_dict_del {V : Type} (k k' : string) (d : dict V) :
  In k' (keys (dict_del k d)) <-> In k' (keys d) /\ k' <> k.
Proof.
  unfold keys, dict_del. induction d as [| [a v] d IH]; simpl.
  - tauto.
  - destruct (String.eqb_spec a k) as [-> | Hne]; simpl.
    + rewrite IH. split; [tauto |]. intros [[E | H] Hk]; [congruence | tauto].
    + rewrite IH. split; [| tauto]. intros [E | H]; [| tauto].
      split; [left; exact E | congruence].
Qed.

Lemma dict_in_del {V : Type} (k : string) (d : dict V) :
  dict_in k (dict_del k d) = false.
Proof.
  destruct (dict_in k (dict_del k d)) eqn:E; [| reflexivity].
  apply dict_in_iff, keys_dict_del in E. destruct E as [_ E]. contradiction E; reflexivity.
Qed.

Lemma dict_get_del_ne {V : Type} (k k' : string) (d : dict V) :
  k' <> k -> dict_get k' (dict_del k d) = dict_get k' d.
Proof.
  intro Hne. unfold dict_del. induction d as [| [a v] d IH]; simpl.
  - reflexivity.
  - destruct (String.eqb_spec a k) as [-> | Hak]; simpl.
    + destruct (String.eqb_spec k k') as [E | _]; [congruence | exact IH].
    + destruct (String.eqb_spec a k'); [reflexivity | exact IH].
Qed.

Lemma dict_del_absent {V : Type} (k : string) (d : dict V) :
  dict_in k d = false -> dict_del k d = d.
Proof.
  unfold dict_in, dict_del. induction d as [| [a v] d IH]; simpl.
  - reflexivity.
  - intro E. apply orb_false_iff in E. destruct E as [Ea Ed].
    rewrite Ea. simpl. rewrite (IH Ed). reflexivity.
Qed.

Lemma append_inj (p a b : string) : (p ++ a = p ++ b)%string -> a = b.
Proof.
  induction p as [| c p IH]; simpl; intro E.
  - exact E.
  - injection E as E. exact (IH E).
Qed.

Lemma prefix_append (p s : string) : String.prefix p (p ++ s)%string = true.
Proof.
  induction p as [| c p IH]; simpl.
  - destruct s; reflexivity.
  - destruct (ascii_dec c c) as [_ | Hc]; [exact IH | contradiction Hc; reflexivity].
Qed.

Lemma str_drop_append (p s : string) :
  str_drop (String.length p) (p ++ s)%string = s.
Proof.
  induction p as [| c p IH]; simpl.
  - reflexivity.
  - exact IH.
Qed.

Lemma list_eqb_refl (l : list Z) : list_eqb l l = true.
Proof.
  unfold list_eqb. rewrite Nat.eqb_refl. simpl.
  induction l as [| a l IH]; simpl.
  - reflexivity.
  - rewrite Z.eqb_refl. exact IH.
Qed.

Lemma filter_none {A : Type} (f : A -> bool) (l : list A) :
  (forall x, In x l -> f x = false) -> filter f l = [].
Proof.
  induction l as [| a l IH]; simpl; intro H.
  - reflexivity.
  - rewrite (H a (or_introl eq_refl)). apply IH. intros x Hx. apply H. right. exact Hx.
Qed.

(** ** Frozen normalization layer: restoring state *)

Lemma load_state_dict_of {float : Type}
  (self : FrozenBatchNorm2d float) (state_dict : dict (Tensor float))
  (prefix : string) (strict : bool)
  (missing_keys unexpected_keys : list string) (error_msgs : list load_error) :
  FrozenBatchNorm2d_load_from_state_dict self state_dict prefix strict
    missing_keys unexpected_keys error_msgs =
  Module_load_from_state_dict self
    (dict_del (num_batches_tracked_key prefix) state_dict) prefix strict
    missing_keys unexpected_keys error_msgs.
Proof.
  unfold FrozenBatchNorm2d_load_from_state_dict. fold (num_batches_tracked_key prefix).
  destruct (dict_in (num_batches_tracked_key prefix) state_dict) eqn:E.
  - reflexivity.
  - rewrite (dict_del_absent _ _ E). reflexivity.
Qed.

Lemma Module_load_state_dict {float : Type}
  (self : FrozenBatchNorm2d float) (state_dict : dict (Tensor float))
  (prefix : string) (strict : bool)
  (missing_keys unexpected_keys : list string) (error_msgs : list load_error) :
  ls_state_dict (Module_load_from_state_dict self state_dict prefix strict
                   missing_keys unexpected_keys error_msgs) = state_dict.
Proof.
  unfold Module_load_from_state_dict.
  destruct (load_local state_dict prefix strict (local_state self) missing_keys error_msgs)
    as [[l mk] em].
  reflexivity.
Qed.

(** C10: when the dictionary handed to the layer's loader contains the
    num_batches_tracked key for its prefix, the dictionary after the call
    no longer contains that key, and every other entry is as before (same
    value, same order). *)
Theorem load_from_state_dict_deletes_key :
  forall (float : Type) (self : FrozenBatchNorm2d float)
         (state_dict : dict (Tensor float)) (prefix : string) (strict : bool)
         (missing_keys unexpected_keys : list string) (error_msgs : list load_error),
    dict_in (num_batches_tracked_key prefix) state_dict = true ->
    let after :=
      ls_state_dict (FrozenBatchNorm2d_load_from_state_dict self state_dict prefix
                       strict missing_keys unexpected_keys error_msgs) in
    dict_in (num_batches_tracked_key prefix) after = false /\
    (forall k, k <> num_batches_tracked_key prefix ->
               dict_get k after = dict_get k state_dict) /\
    after = filter (fun e => negb (String.eqb (fst e) (num_batches_tracked_key prefix)))
              state_dict.
Proof.
  intros float self state_dict prefix strict missing_keys unexpected_keys error_msgs
    Hin after.
  unfold after. rewrite load_state_dict_of, Module_load_state_dict.
  split; [apply dict_in_del |].
  split; [| reflexivity].
  intros k Hk. apply dict_get_del_ne. exact Hk.
Qed.

Lemma buffer_key_not_counter (prefix name : string) :
  In name buffer_names -> (prefix ++ name)%string <> num_batches_tracked_key prefix.
Proof.
  intros Hn E. apply append_inj in E. subst name.
  simpl in Hn. repeat (destruct Hn as [Hn | Hn]; [discriminate Hn |]). exact Hn.
Qed.

Lemma saved_key_expected {float : Type} (prefix : string) (n : Z)
  (state_dict : dict (Tensor float)) (k : string) :
  saved_state prefix n state_dict ->
  In k (keys (dict_del (num_batches_tracked_key prefix) state_dict)) ->
  String.prefix prefix k = true ->
  exists name, In name buffer_names /\ k = (prefix ++ name)%string.
Proof.
  intros [_ Hall] Hk Hp. apply keys_dict_del in Hk. destruct Hk as [Hk Hne].
  specialize (Hall k Hk Hp). apply in_map_iff in Hall.
  destruct Hall as [name [<- Hname]].
  destruct Hname as [<- | Hname]; [contradiction Hne; reflexivity |].
  exists name. split; [exact Hname | reflexivity].
Qed.

Lemma saved_state_no_unexpected {float : Type} (prefix : string) (n : Z)
  (state_dict : dict (Tensor float)) :
  saved_state prefix n state_dict ->
  let sd := dict_del (num_batches_tracked_key prefix) state_dict in
  dict_in (prefix ++ "_extra_state")%string sd = false /\
  filter (is_unexpected prefix (prefix ++ "_extra_state")%string [] buffer_names)
    (keys sd) = [].
Proof.
  intros Hs sd. split.
  - destruct (dict_in (prefix ++ "_extra_state")%string sd) eqn:E; [| reflexivity].
    apply dict_in_iff in E.
    destruct (saved_key_expected _ Hs E (prefix_append _ _)) as [name [Hname Heq]].
    apply append_inj in Heq. subst name. simpl in Hname.
    repeat (destruct Hname as [Hname | Hname]; [discriminate Hname |]). contradiction.
  - apply filter_none. intros k Hk. unfold is_unexpected.
    destruct (String.prefix prefix k) eqn:Hp; [| reflexivity].
    destruct (saved_key_expected _ Hs Hk Hp) as [name [Hname ->]].
    rewrite str_drop_append.
    simpl in Hname.
    repeat (destruct Hname as [<- | Hname];
            [simpl; rewrite andb_false_r; reflexivity |]).
    contradiction.
Qed.

Lemma saved_buffer_lookup {float : Type} (prefix : string) (n : Z)
  (state_dict : dict (Tensor float)) (name : string) :
  saved_state prefix n state_dict ->
  In name buffer_names ->
  exists t,
    dict_get (prefix ++ name)%string
      (dict_del (num_batches_tracked_key prefix) state_dict) = Some t /\
    dict_get (prefix ++ name)%string state_dict = Some t /\
    shape t = [n].
Proof.
  intros [Hget _] Hname. destruct (Hget name Hname) as [t [Ht Hsh]].
  exists t. split; [| split; assumption].
  rewrite dict_get_del_ne; [exact Ht | apply buffer_key_not_counter; exact Hname].
Qed.

Lemma new_unexpected_keys {float : Type}
  (self : FrozenBatchNorm2d float) (state_dict : dict (Tensor float))
  (prefix : string) (strict : bool)
  (missing_keys unexpected_keys : list string) (error_msgs : list load_error) :
  exists new,
    ls_unexpected_keys (Module_load_from_state_dict self state_dict prefix strict
                          missing_keys unexpected_keys error_msgs)
    = unexpected_keys ++ new /\
    forall k, In k new ->
      In k (keys state_dict) /\ String.prefix prefix k = true.
Proof.
  unfold Module_load_from_state_dict.
  destruct (load_local state_dict prefix strict (local_state self) missing_keys error_msgs)
    as [[l mk] em].
  cbn [ls_unexpected_keys].
  destruct strict; cbn [andb].
  - destruct (dict_in (prefix ++ "_extra_state")%string state_dict) eqn:E.
    + eexists. split; [rewrite <- app_assoc; reflexivity |].
      intros k [<- | Hk].
      * split; [apply dict_in_iff; exact E | apply prefix_append].
      * apply filter_In in Hk. destruct Hk as [Hk Hu]. split; [exact Hk |].
        unfold is_unexpected in Hu.
        destruct (String.prefix prefix k); [reflexivity | discriminate Hu].
    + eexists. split; [reflexivity |].
      intros k Hk. apply filter_In in Hk. destruct Hk as [Hk Hu]. split; [exact Hk |].
      unfold is_unexpected in Hu.
      destruct (String.prefix prefix k); [reflexivity | discriminate Hu].
  - exists []. split; [rewrite app_nil_r; reflexivity |]. intros k [].
Qed.

(** C9: restoring the layer's state does not depend on the tracking
    counter: with the counter present or absent the outcome is that of
    restoring the state without it, the counter is gone from the
    dictionary and is never among the keys newly recorded as unexpected;
    and on a saved state of the layer's size (with or without the
    counter) nothing is recorded as missing, unexpected or erroneous and
    the four buffers take the saved values. *)
Theorem load_from_state_dict_tolerates_counter :
  forall (float : Type) (self : FrozenBatchNorm2d float)
         (state_dict : dict (Tensor float)) (prefix : string) (strict : bool)
         (missing_keys unexpected_keys : list string) (error_msgs : list load_error)
         (n : Z),
    let key := num_batches_tracked_key prefix in
    let r := FrozenBatchNorm2d_load_from_state_dict self state_dict prefix strict
               missing_keys unexpected_keys error_msgs in
    r = FrozenBatchNorm2d_load_from_state_dict self (dict_del key state_dict) prefix
          strict missing_keys unexpected_keys error_msgs /\
    dict_in key (ls_state_dict r) = false /\
    (exists new, ls_unexpected_keys r = unexpected_keys ++ new /\ ~ In key new) /\
    (has_size self n -> saved_state prefix n state_dict ->
     ls_missing_keys r = missing_keys /\
     ls_unexpected_keys r = unexpected_keys /\
     ls_error_msgs r = error_msgs /\
     dict_get (prefix ++ "weight")%string state_dict = Some (weight (ls_self r)) /\
     dict_get (prefix ++ "bias")%string state_dict = Some (bias (ls_self r)) /\
     dict_get (prefix ++ "running_mean")%string state_dict
       = Some (running_mean (ls_self r)) /\
     dict_get (prefix ++ "running_var")%string state_dict
       = Some (running_var (ls_self r))).
Proof.
  intros float self state_dict prefix strict missing_keys unexpected_keys error_msgs
    n key r.
  unfold r. rewrite !load_state_dict_of. fold key.
  split; [| split; [| split]].
  - rewrite (dict_del_absent key (dict_del key state_dict) (dict_in_del _ _)).
    reflexivity.
  - rewrite Module_load_state_dict. apply dict_in_del.
  - destruct (new_unexpected_keys self (dict_del key state_dict) prefix strict
                missing_keys unexpected_keys error_msgs) as [new [Hnew Hin]].
    exists new. split; [exact Hnew |].
    intro Hk. apply Hin in Hk. destruct Hk as [Hk _].
    apply keys_dict_del in Hk. destruct Hk as [_ Hk]. contradiction Hk; reflexivity.
  - intros [Hw [Hb [Hm Hv]]] Hs.
    destruct (saved_state_no_unexpected Hs) as [Hextra Hfilter].
    fold key in Hextra, Hfilter.
    destruct (saved_buffer_lookup (name := "weight"%string) Hs) as [tw [Ew [Ew' Sw]]];
      [simpl; auto |].
    destruct (saved_buffer_lookup (name := "bias"%string) Hs) as [tb [Eb [Eb' Sb]]];
      [simpl; auto |].
    destruct (saved_buffer_lookup (name := "running_mean"%string) Hs) as [tm [Em [Em' Sm]]];
      [simpl; auto |].
    destruct (saved_buffer_lookup (name := "running_var"%string) Hs) as [tv [Ev [Ev' Sv]]];
      [simpl; auto 6 |].
    fold key in Ew, Eb, Em, Ev.
    unfold Module_load_from_state_dict.
    cbn [local_state load_local keys map fst].
    rewrite Ew, Eb, Em, Ev, Sw, Sb, Sm, Sv, Hw, Hb, Hm, Hv.
    rewrite !list_eqb_refl. cbn [negb].
    change ["weight"; "bias"; "running_mean"; "running_var"]%string with buffer_names.
    rewrite Hextra, Hfilter, andb_false_r.
    cbn. rewrite Ew', Eb', Em', Ev'.
    destruct strict; rewrite ?app_nil_r; repeat split; reflexivity.
Qed.

(** ** Base wrapper: the masks follow the feature maps *)

Lemma last2_length (s : list Z) : (2 <= length s)%nat -> length (last2 s) = 2%nat.
Proof.
  intro H. unfold last2. rewrite length_skipn. lia.
Qed.

Lemma last2_cons (c : Z) (s : list Z) : length s = 2%nat -> last2 (c :: s) = s.
Proof.
  destruct s as [| a [| b [| d s]]]; simpl; intro H; try discriminate H.
  reflexivity.
Qed.

Lemma F_interpolate_shape {float : Type} `{Torch float}
  (input r : Tensor float) (size : list Z) :
  F_interpolate input size = Ok r ->
  exists n c spatial, shape input = n :: c :: spatial /\ shape r = n :: c :: size.
Proof.
  unfold F_interpolate. destruct (shape input) as [| n [| c spatial]]; try discriminate.
  destruct (negb (length size =? length spatial)%nat); [discriminate |].
  destruct (negb _); [discriminate |].
  destruct (_ && _); [| discriminate].
  intro E. injection E as <-. exists n, c, spatial. split; reflexivity.
Qed.

Lemma getitem0_shape {A : Type} (m r : Tensor A) :
  getitem0 m = Ok r -> exists n, shape m = n :: shape r.
Proof.
  unfold getitem0. destruct (shape m) as [| n rest]; [discriminate |].
  destruct (0 <? n); [| discriminate].
  intro E. injection E as <-. exists n. reflexivity.
Qed.

Lemma dict_set_In {V : Type} (k : string) (v : V) (d : dict V) (k' : string) (v' : V) :
  In (k', v') (dict_set k v d) -> (k', v') = (k, v) \/ In (k', v') d.
Proof.
  induction d as [| [a w] d IH]; simpl.
  - intros [E | []]. left. symmetry. exact E.
  - destruct (String.eqb a k); simpl.
    + intros [E | Hin]; [left; symmetry; exact E | right; right; exact Hin].
    + intros [E | Hin]; [right; left; exact E |].
      destruct (IH Hin) as [E | Hd]; [left; exact E | right; right; exact Hd].
Qed.

Lemma keys_dict_set {V : Type} (k : string) (v : V) (d : dict V) (k' : string) :
  In k' (keys (dict_set k v d)) <-> k' = k \/ In k' (keys d).
Proof.
  unfold keys. induction d as [| [a w] d IH]; simpl.
  - split; [intros [E | []]; left; symmetry; exact E | intros [E | []]; left; symmetry; exact E].
  - destruct (String.eqb_spec a k) as [-> | Hne]; simpl.
    + split; [intros [E | Hin]; [left; symmetry; exact E | right; right; exact Hin] |].
      intros [E | [E | Hin]]; [left; symmetry; exact E | left; exact E | right; exact Hin].
    + rewrite IH. tauto.
Qed.

Lemma forward_step_shape {float : Type} `{Torch float}
  (m : Tensor bool) (x r : Tensor float) (mk : Tensor bool) :
  (2 <= length (shape x))%nat ->
  F_interpolate (to_float (unsqueeze0 m)) (last2 (shape x)) = Ok r ->
  getitem0 (to_torch_bool r) = Ok mk ->
  last2 (shape mk) = last2 (shape x).
Proof.
  intros Hrank Hi Hg.
  apply F_interpolate_shape in Hi. destruct Hi as [n [c [spatial [_ Hr]]]].
  apply getitem0_shape in Hg. destruct Hg as [n' Hg].
  simpl in Hg. rewrite Hr in Hg. injection Hg as _ <-.
  apply last2_cons, last2_length, Hrank.
Qed.

Lemma forward_loop_masks {float : Type} `{Torch float}
  (tensor_list : NestedTensor float) (all : dict (Tensor float)) :
  forall (xs : dict (Tensor float)) (acc out : dict (NestedTensor float)),
    Forall (fun e => (2 <= length (shape (snd e)))%nat) xs ->
    incl xs all ->
    BackboneBase_forward_loop tensor_list xs acc = Ok out ->
    (forall name o, In (name, o) acc -> In (name, tensors o) all /\ mask_fits o) ->
    forall name o, In (name, o) out -> In (name, tensors o) all /\ mask_fits o.
Proof.
  induction xs as [| [k x] xs IH]; intros acc out Hrank Hincl E Hacc.
  - simpl in E. injection E as <-. exact Hacc.
  - simpl in E. destruct (mask tensor_list) as [m |]; [| discriminate E].
    apply bind_Ok in E. destruct E as [r [Hi E]].
    apply bind_Ok in E. destruct E as [mk [Hg E]].
    inversion Hrank as [| ? ? Hx Hrest]; subst.
    apply (IH _ _ Hrest (fun e He => Hincl e (or_intror He)) E).
    intros name o Hin. apply dict_set_In in Hin. destruct Hin as [Heq | Hin].
    + injection Heq as -> ->. simpl. split.
      * apply Hincl. left. reflexivity.
      * exists mk. split; [reflexivity |]. simpl.
        exact (forward_step_shape m x Hx Hi Hg).
    + apply Hacc. exact Hin.
Qed.

Lemma forward_loop_returns {float : Type} `{Torch float}
  (tensor_list : NestedTensor float) (m : Tensor bool) (b h w : Z) :
  mask tensor_list = Some m ->
  shape m = [b; h; w] -> 0 < b -> 0 < h -> 0 < w ->
  forall (xs : dict (Tensor float)) (acc : dict (NestedTensor float)),
    Forall (fun e => (2 <= length (shape (snd e)))%nat /\
                     Forall (Z.lt 0) (last2 (shape (snd e)))) xs ->
    exists out,
      BackboneBase_forward_loop tensor_list xs acc = Ok out /\
      forall name, In name (keys out) <-> In name (keys acc) \/ In name (keys xs).
Proof.
  intros Hm Hsh Hb Hh Hw.
  induction xs as [| [k x] xs IH]; intros acc Hxs.
  - exists acc. split; [reflexivity |]. simpl. tauto.
  - inversion Hxs as [| ? ? [Hrank Hpos] Hrest]; subst. simpl in Hrank, Hpos.
    cbn [BackboneBase_forward_loop]. rewrite Hm.
    unfold F_interpolate. cbn [to_float unsqueeze0 shape]. rewrite Hsh.
    rewrite (last2_length _ Hrank). cbn [length Nat.eqb negb Nat.leb andb forallb].
    assert (Hf : forallb (Z.ltb 0) (last2 (shape x)) = true).
    { apply forallb_forall. intros z Hz. apply Z.ltb_lt.
      rewrite Forall_forall in Hpos. exact (Hpos z Hz). }
    rewrite Hf.
    rewrite (proj2 (Z.ltb_lt 0 h) Hh), (proj2 (Z.ltb_lt 0 w) Hw),
      (proj2 (Z.ltb_lt 0 b) Hb).
    cbn [andb bind getitem0 to_torch_bool shape Z.ltb Z.compare].
    match goal with
    | |- exists out, BackboneBase_forward_loop _ _ ?acc' = _ /\ _ =>
        destruct (IH acc' Hrest) as [out [Hout Hkeys]]
    end.
    exists out. split; [exact Hout |].
    intro name. rewrite Hkeys, keys_dict_set. simpl. intuition congruence.
Qed.

(** C2: when the wrapped network returns its stages, each with at least a
    height and a width, every stage the forward returns pairs that
    stage's feature map with a mask whose spatial shape (last two
    dimensions) is the feature map's; and the forward does return, with
    one entry per stage, when the input mask is a non-empty (batch,
    height, width) tensor and the feature maps are non-empty. *)
Theorem BackboneBase_forward_mask_shape :
  forall (float : Type) (T : Torch float) (self : BackboneBase float)
         (tensor_list : NestedTensor float) (xs : dict (Tensor float)),
    body self (tensors tensor_list) = Ok xs ->
    Forall (fun e => (2 <= length (shape (snd e)))%nat) xs ->
    (forall out, BackboneBase_forward self tensor_list = Ok out ->
       forall name o, In (name, o) out ->
         In (name, tensors o) xs /\
         exists m, mask o = Some m /\
                   last2 (shape m) = last2 (shape (tensors o))) /\
    (forall m b h w,
       mask tensor_list = Some m -> shape m = [b; h; w] ->
       0 < b -> 0 < h -> 0 < w ->
       Forall (fun e => Forall (Z.lt 0) (last2 (shape (snd e)))) xs ->
       exists out, BackboneBase_forward self tensor_list = Ok out /\
                   forall name, In name (keys out) <-> In name (keys xs)).
Proof.
  intros float T self tensor_list xs Hbody Hrank. split.
  - intros out E name o Hin. unfold BackboneBase_forward in E.
    rewrite Hbody in E. simpl in E.
    apply (@forward_loop_masks float T tensor_list xs xs [] out Hrank (incl_refl xs) E);
      [| exact Hin].
    intros ? ? [].
  - intros m b h w Hm Hsh Hb Hh Hw Hpos.
    unfold BackboneBase_forward. rewrite Hbody. simpl.
    destruct (@forward_loop_returns float T tensor_list m b h w Hm Hsh Hb Hh Hw xs [])
      as [out [Hout Hkeys]].
    + rewrite Forall_forall in *. intros e He. split; [apply Hrank | apply Hpos]; exact He.
    + exists out. split; [exact Hout |]. intro name. rewrite Hkeys. simpl. tauto.
Qed.

(** ** Patch backbone: the shape of the patches *)

Lemma F_pad_4d {float : Type} `{Torch float} (x : Tensor float)
  (b c h w l1 h1 l2 h2 : Z) :
  shape x = [b; c; h; w] ->
  match F_pad x [l1; h1; l2; h2] with
  | Ok y =>
      0 <= w + Z.min l1 0 + Z.min h1 0 /\ 0 <= h + Z.min l2 0 + Z.min h2 0 /\
      shape y = [b; c; h + l2 + h2; w + l1 + h1]
  | Raise e =>
      e = RuntimeError /\
      (w + Z.min l1 0 + Z.min h1 0 < 0 \/ h + Z.min l2 0 + Z.min h2 0 < 0)
  end.
Proof.
  intro Hsh. unfold F_pad. rewrite Hsh. cbn [rev app pad_shape_rev].
  destruct (Z.ltb_spec (w + Z.min l1 0 + Z.min h1 0) 0) as [Hw | Hw].
  - cbn [bind]. split; [reflexivity | left; exact Hw].
  - destruct (Z.ltb_spec (h + Z.min l2 0 + Z.min h2 0) 0) as [Hh | Hh].
    + cbn [bind]. split; [reflexivity | right; exact Hh].
    + cbn [bind shape rev app]. repeat split; assumption.
Qed.

Lemma unfold_char {A : Type} (x : Tensor A) (dimension : nat) (size step len : Z) :
  nth_error (shape x) dimension = Some len ->
  match unfold x dimension size step with
  | Ok y =>
      0 <= size <= len /\ 0 < step /\
      shape y = set_nth dimension ((len - size) / step + 1) (shape x) ++ [size]
  | Raise e => e = RuntimeError /\ ~ (0 <= size <= len /\ 0 < step)
  end.
Proof.
  intro Hn. unfold unfold. rewrite Hn.
  destruct (Z.ltb_spec len size) as [H1 | H1]; cbn [orb].
  - split; [reflexivity | lia].
  - destruct (Z.ltb_spec size 0) as [H2 | H2].
    + split; [reflexivity | lia].
    + destruct (Z.leb_spec step 0) as [H3 | H3].
      * split; [reflexivity | lia].
      * cbn [shape]. repeat split; try lia.
Qed.

Lemma infer_size_patches (b p q m : Z) :
  0 < p -> 0 < q ->
  infer_size [b; -1; p; q] (b * (m * (p * (q * 1)))) =
  if 0 <? b then Ok [b; m; p; q] else Raise RuntimeError.
Proof.
  intros Hp Hq. unfold infer_size.
  assert (Ep : (p =? -1) = false) by (apply Z.eqb_neq; lia).
  assert (Eq : (q =? -1) = false) by (apply Z.eqb_neq; lia).
  assert (Lp : (p <? 0) = false) by (apply Z.ltb_ge; lia).
  assert (Lq : (q <? 0) = false) by (apply Z.ltb_ge; lia).
  cbn [filter]. rewrite Ep, Eq, Z.eqb_refl. cbn [negb].
  destruct (Z.eqb_spec b (-1)) as [-> | Hb]; cbn [negb].
  - cbn [existsb]. rewrite Lp, Lq. reflexivity.
  - cbn [existsb]. rewrite Lp, Lq. cbn [orb].
    destruct (Z.ltb_spec b 0) as [Hneg | Hnn]; cbn [orb].
    + destruct (Z.ltb_spec 0 b); [lia | reflexivity].
    + cbn [length Nat.sub Nat.ltb Nat.leb Nat.eqb numel fold_right].
      destruct (Z.ltb_spec 0 b) as [Hpos | Hz].
      * assert (Hn : 0 < b * (p * (q * 1))) by nia.
        replace (b * (m * (p * (q * 1)))) with (m * (b * (p * (q * 1)))) by ring.
        rewrite Z.mod_mul by lia. rewrite Z.div_mul by lia.
        rewrite (proj2 (Z.ltb_lt _ _) Hn). rewrite Z.eqb_refl, orb_true_r.
        rewrite (proj2 (Z.eqb_neq _ 0)) by lia.
        cbn [map]. rewrite Ep, Eq, Z.eqb_refl.
        rewrite (proj2 (Z.eqb_neq b (-1)) Hb). reflexivity.
      * assert (b = 0) by lia. subst b. reflexivity.
Qed.

Lemma view_patches {A : Type} (x : Tensor A) (b k c p q : Z) :
  shape x = [b; k; k; c; p; q] -> 0 < p -> 0 < q ->
  match view x [b; -1; p; q] with
  | Ok y => 0 < b /\ shape y = [b; k * k * c; p; q]
  | Raise e => e = RuntimeError /\ b <= 0
  end.
Proof.
  intros Hsh Hp Hq. unfold view. rewrite Hsh.
  replace (numel [b; k; k; c; p; q]) with (b * (k * k * c * (p * (q * 1))))
    by (cbn [numel fold_right]; ring).
  rewrite infer_size_patches by assumption.
  destruct (Z.ltb_spec 0 b) as [Hb | Hb]; cbn [bind shape].
  - split; [exact Hb | reflexivity].
  - split; [reflexivity | exact Hb].
Qed.

Lemma extract_image_patches_char {float : Type} `{Torch float}
  (x : Tensor float) (b c h w kernel stride dilation : Z) :
  shape x = [b; c; h; w] -> stride <> 0 ->
  let pad_row := (- (- h / stride) - 1) * stride + (kernel - 1) * dilation + 1 - h in
  let pad_col := (- (- w / stride) - 1) * stride + (kernel - 1) * dilation + 1 - w in
  match extract_image_patches x kernel stride dilation with
  | Ok y =>
      0 < b /\ 0 < stride /\ 0 <= kernel <= h + pad_col /\ kernel <= w + pad_row /\
      0 <= h + Z.min pad_col 0 /\ 0 <= w + Z.min pad_row 0 /\
      shape y = [b; kernel * kernel * c;
                 (h + pad_col - kernel) / stride + 1;
                 (w + pad_row - kernel) / stride + 1]
  | Raise e =>
      e = RuntimeError /\
      ~ (0 < b /\ 0 < stride /\ 0 <= kernel <= h + pad_col /\ kernel <= w + pad_row /\
         0 <= h + Z.min pad_col 0 /\ 0 <= w + Z.min pad_row 0)
  end.
Proof.
  intros Hsh Hs pad_row pad_col.
  unfold extract_image_patches. rewrite Hsh. unfold math_ceil_div.
  rewrite (proj2 (Z.eqb_neq stride 0) Hs). cbn [bind].
  fold pad_row pad_col.
  clearbody pad_row pad_col.
  pose proof (@F_pad_4d _ _ x b c h w (pad_row / 2) (pad_row - pad_row / 2)
                (pad_col / 2) (pad_col - pad_col / 2) Hsh) as HP.
  destruct (F_pad x _) as [x1 | e]; cbn [bind]; [| destruct HP as [-> HP]; split; [reflexivity | ]]. 2: { Z.div_mod_to_equations. lia. }
  destruct HP as [Pw [Ph S1]].
  replace (h + pad_col / 2 + (pad_col - pad_col / 2)) with (h + pad_col) in S1 by ring.
  replace (w + pad_row / 2 + (pad_row - pad_row / 2)) with (w + pad_row) in S1 by ring.
  pose proof (@unfold_char _ x1 2 kernel stride (h + pad_col)) as HU.
  rewrite S1 in HU. specialize (HU eq_refl).
  destruct (unfold x1 2 kernel stride) as [x2 | e]; cbn [bind];
    [| destruct HU as [-> HU]; split; [reflexivity | lia]].
  destruct HU as [Hk [Hst S2]]. cbn [set_nth app] in S2.
  pose proof (@unfold_char _ x2 3 kernel stride (w + pad_row)) as HV.
  rewrite S2 in HV. specialize (HV eq_refl).
  destruct (unfold x2 3 kernel stride) as [x3 | e]; cbn [bind];
    [| destruct HV as [-> HV]; split; [reflexivity | lia]].
  destruct HV as [Hk' [_ S3]]. cbn [set_nth app] in S3.
  unfold permute. rewrite S3.
  cbn [length is_permutation Nat.eqb andb forallb seq existsb orb bind contiguous shape
       map nthZ nth Nat.sub].
  set (p := (h + pad_col - kernel) / stride + 1) in *.
  set (q := (w + pad_row - kernel) / stride + 1) in *.
  assert (Hp : 0 < p) by (unfold p; pose proof (Z.div_pos (h + pad_col - kernel) stride); lia).
  assert (Hq : 0 < q) by (unfold q; pose proof (Z.div_pos (w + pad_row - kernel) stride); lia).
  match goal with
  | |- match view ?t _ with _ => _ end =>
      pose proof (@view_patches _ t b kernel c p q eq_refl Hp Hq) as HW;
      destruct (view t [b; -1; p; q]) as [y | e]
  end.
  - destruct HW as [Hb Sy]. repeat split; try lia. exact Sy.
  - destruct HW as [-> Hb]. split; [reflexivity | lia].
Qed.

Lemma ceil_residue (n s : Z) :
  0 < s -> exists r, 0 <= r < s /\ - (- n / s) * s = n + r /\ r = (- n) mod s.
Proof.
  intro Hs. exists ((- n) mod s).
  pose proof (Z.div_mod (- n) s ltac:(lia)) as Hd.
  pose proof (Z.mod_pos_bound (- n) s Hs) as Hb.
  split; [exact Hb |]. split; [| reflexivity]. lia.
Qed.

Lemma congruent_residues (h w s : Z) :
  0 < s -> (h - w) mod s = 0 -> (- h) mod s = (- w) mod s.
Proof.
  intros Hs Hc.
  replace (- h) with (- w + - ((h - w) / s) * s).
  - apply Z.mod_add. lia.
  - pose proof (Z.div_mod (h - w) s ltac:(lia)). lia.
Qed.

Lemma extract_image_patches_same_grid {float : Type} `{Torch float}
  (x : Tensor float) (b c h w kernel stride : Z) :
  shape x = [b; c; h; w] ->
  0 < b -> 0 < h -> 0 < w -> 0 < kernel -> 0 < stride ->
  (h - w) mod stride = 0 ->
  exists y,
    extract_image_patches x kernel stride 1 = Ok y /\
    shape y = [b; kernel * kernel * c; - (- h / stride); - (- w / stride)].
Proof.
  intros Hsh Hb Hh Hw Hk Hs Hc.
  pose proof (@extract_image_patches_char _ _ x b c h w kernel stride 1 Hsh ltac:(lia)) as HC.
  cbv zeta in HC.
  destruct (ceil_residue h Hs) as [rh [Brh [Eh Rh]]].
  destruct (ceil_residue w Hs) as [rw [Brw [Ew Rw]]].
  assert (Hr : rh = rw) by (rewrite Rh, Rw; apply congruent_residues; assumption).
  subst rw. clear Rh.
  set (h2 := - (- h / stride)) in *. set (w2 := - (- w / stride)) in *.
  assert (Ph : h + ((w2 - 1) * stride + (kernel - 1) * 1 + 1 - w) - kernel
               = (h2 - 1) * stride) by lia.
  assert (Pw : w + ((h2 - 1) * stride + (kernel - 1) * 1 + 1 - h) - kernel
               = (w2 - 1) * stride) by lia.
  assert (Hh2 : 1 <= h2) by nia.
  assert (Hw2 : 1 <= w2) by nia.
  rewrite Ph, Pw in HC. rewrite !Z.div_mul in HC by lia.
  destruct (extract_image_patches x kernel stride 1) as [y | e].
  - exists y. split; [reflexivity |].
    destruct HC as [_ [_ [_ [_ [_ [_ Sy]]]]]]. rewrite Sy. f_equal. f_equal. f_equal; [lia |].
    f_equal. lia.
  - exfalso. destruct HC as [_ HC]. apply HC. nia.
Qed.

(** C1 at a non-square input: on a 5 by 8 image with kernel 3, stride 2
    and dilation 1 the patch grid is 2 by 4, while the ceilings of 5/2 and
    8/2 are 3 and 4; and on a square 4 by 4 image with kernel 3, stride 1
    and dilation 2 the grid is 6 by 6 instead of 4 by 4. *)
Theorem extract_image_patches_grid_off :
  forall (float : Type) (T : Torch float) (d : list Z -> float),
    (exists y,
        extract_image_patches (mkTensor [1; 3; 5; 8] d) 3 2 1 = Ok y /\
        shape y = [1; 27; 2; 4] /\
        math_ceil_div 5 2 = Ok 3 /\ math_ceil_div 8 2 = Ok 4) /\
    (exists y,
        extract_image_patches (mkTensor [1; 3; 4; 4] d) 3 1 2 = Ok y /\
        shape y = [1; 27; 6; 6] /\
        math_ceil_div 4 1 = Ok 4).
Proof.
  intros float T d. split.
  - eexists. split; [reflexivity |]. repeat split; reflexivity.
  - eexists. split; [reflexivity |]. repeat split; reflexivity.
Qed.

(** ** Patch backbone: channels *)




(** ** Runs on concrete inputs *)

Lemma bn1_has_size : has_size bn1 2.
Proof.
  repeat split.
Qed.

Lemma checkpoint_saved_state (counter : bool) : saved_state "bn1." 2 (checkpoint counter).
Proof.
  split.
  - intros name Hname. simpl in Hname.
    destruct Hname as [<- | [<- | [<- | [<- | []]]]];
      eexists; (split; [reflexivity | reflexivity]).
  - intros k Hk Hp. destruct counter; simpl in Hk;
      repeat (destruct Hk as [<- | Hk]; [first [discriminate Hp | simpl; tauto] |]);
      contradiction.
Qed.

Lemma FrozenBatchNorm2d_init_bn1 :
  exists self, FrozenBatchNorm2d_init 2 = Ok self /\ has_size self 2.
Proof.
  eexists. split; [reflexivity |]. repeat split.
Qed.

Lemma load_from_state_dict_tolerates_counter_witness :
  (ls_missing_keys
     (FrozenBatchNorm2d_load_from_state_dict bn1 (checkpoint true) "bn1." true [] [] [])
   = [] /\
   ls_unexpected_keys
     (FrozenBatchNorm2d_load_from_state_dict bn1 (checkpoint true) "bn1." true [] [] [])
   = []) /\
  (ls_missing_keys
     (FrozenBatchNorm2d_load_from_state_dict bn1 (checkpoint false) "bn1." true [] [] [])
   = [] /\
   ls_unexpected_keys
     (FrozenBatchNorm2d_load_from_state_dict bn1 (checkpoint false) "bn1." true [] [] [])
   = []).
Proof.
  split.
  - destruct (load_from_state_dict_tolerates_counter bn1 (checkpoint true) "bn1." true
                [] [] [] 2) as [_ [_ [_ H]]].
    destruct (H bn1_has_size (checkpoint_saved_state true)) as [Hm [Hu _]].
    split; [exact Hm | exact Hu].
  - destruct (load_from_state_dict_tolerates_counter bn1 (checkpoint false) "bn1." true
                [] [] [] 2) as [_ [_ [_ H]]].
    destruct (H bn1_has_size (checkpoint_saved_state false)) as [Hm [Hu _]].
    split; [exact Hm | exact Hu].
Defined.

Lemma load_from_state_dict_deletes_key_witness :
  keys (ls_state_dict
          (FrozenBatchNorm2d_load_from_state_dict bn1 (checkpoint true) "bn1." true
             [] [] []))
  = keys (checkpoint false).
Proof.
  destruct (@load_from_state_dict_deletes_key Z bn1 (checkpoint true) "bn1." true
              [] [] [] eq_refl) as [_ [_ H]].
  rewrite H. reflexivity.
Defined.

Lemma BackboneBase_forward_mask_shape_witness :
  exists out,
    BackboneBase_forward one_stage batch = Ok out /\
    forall name o, In (name, o) out ->
      In (name, tensors o) [("0"%string, zeros [2; 2048; 4; 6])] /\
      exists m, mask o = Some m /\ last2 (shape m) = last2 (shape (tensors o)).
Proof.
  assert (Hrank : Forall (fun e : string * Tensor Z => (2 <= length (shape (snd e)))%nat)
                    [("0"%string, zeros [2; 2048; 4; 6])]).
  { repeat constructor. }
  destruct (@BackboneBase_forward_mask_shape Z TorchZ one_stage batch
              [("0"%string, zeros [2; 2048; 4; 6])] eq_refl Hrank) as [Hsafe Hret].
  destruct (Hret (all_true [2; 32; 48]) 2 32 48 eq_refl eq_refl eq_refl eq_refl eq_refl)
    as [out [Hout _]].
  { repeat constructor. }
  exists out. split; [exact Hout | exact (Hsafe out Hout)].
Defined.

(** * Further properties *)

(** ** The ceiling in double precision *)

Lemma round_53_exponent (a b : Z) :
  0 < a < 2 ^ 53 -> 0 < b ->
  let t := Z.log2 a - Z.log2 b in
  let e := if b * 2 ^ Z.max t 0 <=? a * 2 ^ Z.max (- t) 0
           then t - (53 - 1) else t - 53 in
  e <= 0 /\ 2 ^ 52 * b <= a * 2 ^ (- e).
Proof.
  intros [Ha Ba] Hb t e.
  pose proof (Z.log2_spec a Ha) as [La Ua].
  pose proof (Z.log2_spec b Hb) as [Lb Ub].
  pose proof (Z.log2_nonneg a) as Na. pose proof (Z.log2_nonneg b) as Nb.
  assert (Hla : Z.log2 a < 53) by (apply Z.log2_lt_pow2; lia).
  unfold e. destruct (Z.leb_spec (b * 2 ^ Z.max t 0) (a * 2 ^ Z.max (- t) 0)) as [C | C].
  - split; [unfold t; lia |].
    destruct (Z.le_gt_cases 0 t) as [Ht | Ht].
    + rewrite Z.max_l in C by lia. rewrite (Z.max_r (- t) 0) in C by lia.
      replace (- (t - (53 - 1))) with (52 - t) by lia.
      replace (2 ^ 52) with (2 ^ (52 - t) * 2 ^ t)
        by (rewrite <- Z.pow_add_r by (unfold t in *; lia); f_equal; lia).
      assert (0 < 2 ^ (52 - t)) by (apply Z.pow_pos_nonneg; unfold t in *; lia).
      nia.
    + rewrite Z.max_r in C by lia. rewrite (Z.max_l (- t) 0) in C by lia.
      replace (- (t - (53 - 1))) with (- t + 52) by lia.
      rewrite Z.pow_add_r by lia. nia.
  - split; [unfold t; lia |].
    replace (- (t - 53)) with (53 - Z.log2 a + Z.log2 b) by (unfold t; lia).
    assert (E : 2 ^ Z.log2 a * 2 ^ (53 - Z.log2 a + Z.log2 b) = 2 ^ 52 * 2 ^ Z.succ (Z.log2 b)).
    { rewrite <- !Z.pow_add_r by lia. f_equal. lia. }
    assert (0 < 2 ^ (53 - Z.log2 a + Z.log2 b)) by (apply Z.pow_pos_nonneg; lia).
    nia.
Qed.

Lemma float64_ceil_div_exact (a b : Z) :
  0 <= a < 2 ^ 53 -> 0 < b < 2 ^ 53 ->
  float64_ceil_div a b = - ((- a) / b).
Proof.
  intros [Ha Ba] [Hb Bb].
  unfold float64_ceil_div, round_nearest_even.
  destruct (Z.eqb_spec a 0) as [-> | Hne].
  - reflexivity.
  - destruct (@round_53_exponent a b ltac:(lia) Hb) as [He Hnorm].
    cbv zeta in He, Hnorm.
    set (e := if b * 2 ^ Z.max (Z.log2 a - Z.log2 b) 0 <=?
                 a * 2 ^ Z.max (- (Z.log2 a - Z.log2 b)) 0
              then Z.log2 a - Z.log2 b - (53 - 1) else Z.log2 a - Z.log2 b - 53) in *.
    rewrite (Z.max_r e 0) by lia. rewrite (Z.max_l (- e) 0) by lia.
    rewrite Z.pow_0_r, Z.mul_1_r.
    set (k := - e) in *. assert (Hk : 0 <= k) by lia.
    set (p := 2 ^ k) in *. assert (Hp : 0 < p) by (apply Z.pow_pos_nonneg; lia).
    pose proof (Z.div_mod (a * p) b ltac:(lia)) as Hdm.
    pose proof (Z.mod_pos_bound (a * p) b Hb) as Hr.
    set (m0 := a * p / b) in *. set (r := (a * p) mod b) in *.
    (* the exact ceiling *)
    pose proof (Z.div_mod (- a) b ltac:(lia)) as Hc.
    pose proof (Z.mod_pos_bound (- a) b Hb) as Hcr.
    set (n := - (- a / b)) in *.
    assert (Hn1 : (n - 1) * b < a) by (unfold n; nia).
    assert (Hn2 : a <= n * b) by (unfold n; nia).
    assert (Hm0 : 2 ^ 52 <= m0).
    { unfold m0. apply Z.div_le_lower_bound; lia. }
    assert (Hlow : (n - 1) * p <= m0).
    { unfold m0. apply Z.div_le_lower_bound; [lia |]. nia. }
    assert (Hup : m0 <= n * p).
    { apply Z.mul_le_mono_pos_l with (p := b); [lia |]. nia. }
    assert (Hceil : forall m, (n - 1) * p < m <= n * p ->
                              float_ceil (m, e) = n).
    { intros m Hm. unfold float_ceil. cbn [fst snd].
      destruct (Z.leb_spec 0 e) as [He0 | He0].
      - assert (e = 0) by lia. assert (Hp1 : p = 1) by (unfold p, k; replace (- e) with 0 by lia; reflexivity).
        rewrite H, Z.pow_0_r. lia.
      - fold k. fold p. 
        assert (En : - m / p = - n).
        { symmetry. apply (Z.div_unique (- m) p (- n) (n * p - m)); lia. }
        rewrite En. lia. }
    destruct ((b <? 2 * r) || ((b =? 2 * r) && Z.odd m0)) eqn:Hround.
    + (* rounded up: the remainder is positive *)
      apply Hceil.
      assert (Hrpos : 0 < r).
      { apply orb_true_iff in Hround. destruct Hround as [H | H].
        - apply Z.ltb_lt in H. lia.
        - apply andb_true_iff in H. destruct H as [H _]. apply Z.eqb_eq in H. lia. }
      split; [lia |].
      assert (m0 * b < n * p * b) by nia.
      assert (m0 < n * p) by nia. lia.
    + apply Hceil.
      apply orb_false_iff in Hround. destruct Hround as [H1 H2].
      apply Z.ltb_ge in H1.
      split; [| exact Hup].
      destruct (Z.eq_dec m0 ((n - 1) * p)) as [Heq | Hneq]; [| lia].
      exfalso.
      assert (Hr2 : p <= r) by nia.
      assert (2 * p <= b) by lia.
      assert (2 * m0 < a) by nia.
      lia.
Qed.

(** X17: for [0 <= a < 2^53] and [0 < b < 2^53], [math.ceil(a / b)] as
    evaluated in double precision is the exact ceiling of the quotient,
    the value [math_ceil_div] gives; the bound is sharp: for 2^53 + 1 over
    1 the double-precision value is 2^53, one below the exact ceiling. *)
Theorem math_ceil_div_double_precision :
  (forall a b,
      0 <= a < 2 ^ 53 -> 0 < b < 2 ^ 53 ->
      math_ceil_div a b = Ok (float64_ceil_div a b) /\
      (float64_ceil_div a b - 1) * b < a <= float64_ceil_div a b * b) /\
  float64_ceil_div (2 ^ 53 + 1) 1 = 2 ^ 53 /\
  math_ceil_div (2 ^ 53 + 1) 1 = Ok (2 ^ 53 + 1).
Proof.
  split; [| split; reflexivity].
  intros a b Ha Hb. rewrite (float64_ceil_div_exact Ha Hb).
  unfold math_ceil_div. rewrite (proj2 (Z.eqb_neq b 0)) by lia.
  split; [reflexivity |].
  pose proof (Z.div_mod (- a) b ltac:(lia)) as Hd.
  pose proof (Z.mod_pos_bound (- a) b ltac:(lia)) as Hr.
  nia.
Qed.

Lemma math_ceil_div_double_precision_witness :
  math_ceil_div 5 2 = Ok (float64_ceil_div 5 2) /\ float64_ceil_div 5 2 = 3.
Proof.
  split.
  - apply (proj1 math_ceil_div_double_precision 5 2); lia.
  - reflexivity.
Defined.


(** ** Patch extraction: the grid in general *)

Lemma congruent_iff_residues (h w s : Z) :
  0 < s -> ((h - w) mod s = 0 <-> (- h) mod s = (- w) mod s).
Proof.
  intro Hs. split.
  - apply congruent_residues. exact Hs.
  - intro E.
    pose proof (Z.div_mod (- h) s ltac:(lia)) as Dh.
    pose proof (Z.div_mod (- w) s ltac:(lia)) as Dw.
    replace (h - w) with (((- w) / s - (- h) / s) * s) by lia.
    apply Z.mod_mul. lia.
Qed.

Lemma div_near (a r s : Z) :
  0 < s -> - s < r < s -> (a * s + r) / s = a + (if r <? 0 then -1 else 0).
Proof.
  intros Hs Hr. rewrite Z.div_add_l by lia. f_equal.
  destruct (Z.ltb_spec r 0) as [Hn | Hp].
  - symmetry. apply (Z.div_unique r s (-1) (r + s)); lia.
  - apply Z.div_small. lia.
Qed.

(** X1: for image sides and a stride below 2^53 (where the ceiling the
    code computes in floating point is the exact one), with dilation 1 and
    a positive stride: whenever the patch extraction returns, each side of
    the grid is the ceiling of the image side over the stride or one less,
    at least one side is the ceiling, and both are exactly when height and
    width are congruent modulo the stride; in that case, on a non-empty
    image with a positive kernel, the extraction does return. *)
Theorem extract_image_patches_grid_dilation_1 :
  forall (float : Type) (T : Torch float) (x : Tensor float)
         (b c h w kernel stride : Z),
    shape x = [b; c; h; w] ->
    0 <= h < 2 ^ 53 -> 0 <= w < 2 ^ 53 -> 0 < stride < 2 ^ 53 ->
    let h2 := - (- h / stride) in
    let w2 := - (- w / stride) in
    (forall y, extract_image_patches x kernel stride 1 = Ok y ->
       exists p q,
         shape y = [b; kernel * kernel * c; p; q] /\
         (p = h2 \/ p = h2 - 1) /\ (q = w2 \/ q = w2 - 1) /\
         (p = h2 \/ q = w2) /\
         ((p = h2 /\ q = w2) <-> (h - w) mod stride = 0)) /\
    (0 < b -> 0 < h -> 0 < w -> 0 < kernel -> (h - w) mod stride = 0 ->
     exists y, extract_image_patches x kernel stride 1 = Ok y /\
               shape y = [b; kernel * kernel * c; h2; w2]).
Proof.
  intros float T x b c h w kernel stride Hsh Bh Bw [Hs Bs] h2 w2. split.
  - intros y E.
    pose proof (@extract_image_patches_char _ _ x b c h w kernel stride 1 Hsh
                  ltac:(lia)) as HC.
    cbv zeta in HC. rewrite E in HC.
    destruct HC as [_ [_ [_ [_ [_ [_ Sy]]]]]].
    destruct (ceil_residue h Hs) as [rh [Brh [Eh Rh]]].
    destruct (ceil_residue w Hs) as [rw [Brw [Ew Rw]]].
    fold h2 in Eh, Sy. fold w2 in Ew, Sy.
    replace (h + ((w2 - 1) * stride + (kernel - 1) * 1 + 1 - w) - kernel)
      with ((h2 - 1) * stride + (rw - rh)) in Sy by lia.
    replace (w + ((h2 - 1) * stride + (kernel - 1) * 1 + 1 - h) - kernel)
      with ((w2 - 1) * stride + (rh - rw)) in Sy by lia.
    rewrite !div_near in Sy by lia.
    eexists. eexists. split; [exact Sy |].
    rewrite (congruent_iff_residues h w Hs), <- Rh, <- Rw.
    destruct (Z.ltb_spec (rw - rh) 0), (Z.ltb_spec (rh - rw) 0); lia.
  - intros Hb Hh Hw Hk Hc.
    exact (@extract_image_patches_same_grid _ _ x b c h w kernel stride
             Hsh Hb Hh Hw Hk Hs Hc).
Qed.

Lemma extract_image_patches_grid_dilation_1_witness :
  exists y,
    extract_image_patches (zeros [1; 3; 5; 8]) 3 2 1 = Ok y /\
    exists p q, shape y = [1; 3 * 3 * 3; p; q] /\ (p = 3 \/ q = 4).
Proof.
  eexists. split; [reflexivity |].
  destruct (proj1 (@extract_image_patches_grid_dilation_1 Z TorchZ (zeros [1; 3; 5; 8])
                     1 3 5 8 3 2 eq_refl ltac:(lia) ltac:(lia) ltac:(lia)) _ eq_refl)
    as [p [q [Sy [_ [_ [Hpq _]]]]]].
  exists p, q. split; [exact Sy | exact Hpq].
Defined.

(** ** Patch extraction: square images and dilation *)

(** X2: on a non-empty square image of side below 2^53, with positive
    kernel, a positive stride below 2^53 and dilation at least 1, the
    extraction returns a square grid of side
    ceil(n / stride) + (kernel - 1) * (dilation - 1) / stride; the side is
    the ceiling alone exactly when (kernel - 1) * (dilation - 1) is below
    the stride. *)
Theorem extract_image_patches_square_dilated :
  forall (float : Type) (T : Torch float) (x : Tensor float)
         (b c n kernel stride dilation : Z),
    shape x = [b; c; n; n] ->
    0 < b -> 0 < n < 2 ^ 53 -> 0 < kernel -> 0 < stride < 2 ^ 53 ->
    1 <= dilation ->
    let grid := - (- n / stride) + (kernel - 1) * (dilation - 1) / stride in
    exists y,
      extract_image_patches x kernel stride dilation = Ok y /\
      shape y = [b; kernel * kernel * c; grid; grid] /\
      (grid = - (- n / stride) <-> (kernel - 1) * (dilation - 1) < stride).
Proof.
  intros float T x b c n kernel stride dilation Hsh Hb [Hn Bn] Hk [Hs Bs] Hd grid.
  pose proof (@extract_image_patches_char _ _ x b c n n kernel stride dilation Hsh
                ltac:(lia)) as HC.
  cbv zeta in HC.
  destruct (ceil_residue n Hs) as [r [Br [En _]]].
  set (n2 := - (- n / stride)) in *.
  set (pad := (n2 - 1) * stride + (kernel - 1) * dilation + 1 - n) in *.
  assert (Hn2 : 1 <= n2) by nia.
  assert (Hextra : 0 <= (kernel - 1) * (dilation - 1)) by nia.
  assert (Hpad : n + pad - kernel = (n2 - 1) * stride + (kernel - 1) * (dilation - 1))
    by (unfold pad; ring).
  assert (Hq : 0 <= (kernel - 1) * (dilation - 1) / stride)
    by (apply Z.div_pos; lia).
  assert (Hgrid : (n + pad - kernel) / stride + 1 = grid).
  { rewrite Hpad, Z.div_add_l by lia. unfold grid. ring. }
  rewrite Hgrid in HC.
  assert (Hiff : grid = n2 <-> (kernel - 1) * (dilation - 1) < stride).
  { unfold grid. split.
    - intro E. assert (E0 : (kernel - 1) * (dilation - 1) / stride = 0) by lia.
      apply Z.div_small_iff in E0; lia.
    - intro L. rewrite Z.div_small by lia. lia. }
  destruct (extract_image_patches x kernel stride dilation) as [y | e].
  - exists y. split; [reflexivity |].
    destruct HC as [_ [_ [_ [_ [_ [_ Sy]]]]]]. split; [exact Sy | exact Hiff].
  - exfalso. destruct HC as [_ HC]. apply HC.
    assert (0 <= (n2 - 1) * stride) by nia.
    repeat split; try lia.
Qed.

(** ** Patch backbone with stride 1 *)

(** X3: with stride 1 and dilation 1 the patch backbone returns, on every
    non-empty image of height and width below 2^53, a feature map of the
    image's height and width; a mask of the image's size, passed through
    as it is, then has the feature map's spatial shape. *)
Theorem PatchBackbone_stride_1_keeps_size :
  forall (float : Type) (T : Torch float) (kernel : Z)
         (tensor_list : NestedTensor float) (b c h w : Z),
    shape (tensors tensor_list) = [b; c; h; w] ->
    0 < b -> 0 < h < 2 ^ 53 -> 0 < w < 2 ^ 53 -> 0 < kernel ->
    exists output,
      PatchBackbone_forward (PatchBackbone_init kernel 1 1) tensor_list = Ok output /\
      shape (tensors output) = [b; kernel * kernel * c; h; w] /\
      forall m, mask tensor_list = Some m -> last2 (shape m) = [h; w] ->
                mask output = Some m /\
                last2 (shape m) = last2 (shape (tensors output)).
Proof.
  intros float T kernel tensor_list b c h w Hsh Hb [Hh Bh] [Hw Bw] Hk.
  destruct (@extract_image_patches_same_grid _ _ (tensors tensor_list) b c h w
              kernel 1 Hsh Hb Hh Hw Hk ltac:(lia) (Z.mod_1_r _)) as [y [Hy Sy]].
  rewrite !Z.div_1_r, !Z.opp_involutive in Sy.
  exists (mkNestedTensor y (mask tensor_list)). split.
  - unfold PatchBackbone_forward. cbn [PatchBackbone_init pb_kernel pb_stride pb_dilation].
    rewrite Hy. reflexivity.
  - cbn [tensors mask]. split; [exact Sy |].
    intros m Hm Hl. split; [exact Hm |]. rewrite Sy, Hl. reflexivity.
Qed.

Lemma PatchBackbone_stride_1_keeps_size_witness :
  exists output,
    PatchBackbone_forward (PatchBackbone_init 3 1 1)
      (mkNestedTensor (zeros [2; 3; 5; 7]) (Some (all_true [2; 5; 7]))) = Ok output /\
    shape (tensors output) = [2; 3 * 3 * 3; 5; 7].
Proof.
  destruct (@PatchBackbone_stride_1_keeps_size Z TorchZ 3
              (mkNestedTensor (zeros [2; 3; 5; 7]) (Some (all_true [2; 5; 7])))
              2 3 5 7 eq_refl ltac:(lia) ltac:(lia) ltac:(lia) ltac:(lia))
    as [output [Hout [Sout _]]].
  exists output. split; [exact Hout | exact Sout].
Defined.

(** ** Patch extraction: when it raises *)

(** X4: the patch extraction raises [ValueError] on an input that is not
    four-dimensional and [ZeroDivisionError] for stride 0; on a
    four-dimensional input with another stride every failure is a
    [RuntimeError], and it never returns for an empty batch, a negative
    stride or a negative kernel. *)
Theorem extract_image_patches_raises :
  forall (float : Type) (T : Torch float) (x : Tensor float)
         (kernel stride dilation : Z),
    (length (shape x) <> 4%nat ->
     extract_image_patches x kernel stride dilation = Raise ValueError) /\
    (length (shape x) = 4%nat -> stride = 0 ->
     extract_image_patches x kernel stride dilation = Raise ZeroDivisionError) /\
    (length (shape x) = 4%nat -> stride <> 0 ->
     (nthZ (shape x) 0 <= 0 \/ stride < 0 \/ kernel < 0) ->
     extract_image_patches x kernel stride dilation = Raise RuntimeError) /\
    (length (shape x) = 4%nat -> stride <> 0 ->
     forall e, extract_image_patches x kernel stride dilation = Raise e ->
               e = RuntimeError).
Proof.
  intros float T x kernel stride dilation.
  split; [| split; [| split]].
  - intro Hl. unfold extract_image_patches.
    destruct (shape x) as [| b [| c [| h [| w [| z l]]]]]; try reflexivity.
    contradiction Hl. reflexivity.
  - intros Hl ->. unfold extract_image_patches.
    destruct (shape x) as [| b [| c [| h [| w [| z l]]]]]; try discriminate Hl.
    reflexivity.
  - intros Hl Hs Hbad.
    destruct (shape x) as [| b [| c [| h [| w [| z l]]]]] eqn:Hsh; try discriminate Hl.
    pose proof (@extract_image_patches_char _ _ x b c h w kernel stride dilation
                  Hsh Hs) as HC.
    cbv zeta in HC. cbn [nthZ nth] in Hbad.
    destruct (extract_image_patches x kernel stride dilation) as [y | e].
    + exfalso. destruct HC as [H1 [H2 [H3 _]]]. unfold nthZ in Hbad. simpl in Hbad. lia.
    + destruct HC as [-> _]. reflexivity.
  - intros Hl Hs e E.
    destruct (shape x) as [| b [| c [| h [| w [| z l]]]]] eqn:Hsh; try discriminate Hl.
    pose proof (@extract_image_patches_char _ _ x b c h w kernel stride dilation
                  Hsh Hs) as HC.
    cbv zeta in HC. rewrite E in HC. exact (proj1 HC).
Qed.

Lemma extract_image_patches_raises_witness :
  extract_image_patches (zeros [3; 5; 8]) 3 2 1 = Raise ValueError /\
  extract_image_patches (zeros [1; 3; 5; 8]) 3 0 1 = Raise ZeroDivisionError /\
  extract_image_patches (zeros [0; 3; 5; 8]) 3 2 1 = Raise RuntimeError.
Proof.
  split; [| split].
  - apply (proj1 (@extract_image_patches_raises Z TorchZ (zeros [3; 5; 8]) 3 2 1)).
    discriminate.
  - apply (proj1 (proj2 (@extract_image_patches_raises Z TorchZ (zeros [1; 3; 5; 8]) 3 0 1)));
      reflexivity.
  - apply (proj1 (proj2 (proj2 (@extract_image_patches_raises Z TorchZ
                                   (zeros [0; 3; 5; 8]) 3 2 1)))).
    + reflexivity.
    + discriminate.
    + left. unfold nthZ. simpl. lia.
Defined.

(** ** Patch extraction: what the patches hold *)

Lemma view_data {A : Type} (x y : Tensor A) (size : list Z) :
  view x size = Ok y ->
  forall idx, data y idx = data x (unravel (shape x) (ravel (shape y) idx)).
Proof.
  unfold view. intro E. inv_bind E. injection E as <-. reflexivity.
Qed.

Lemma permute_inv {A : Type} (x y : Tensor A) (dims : list nat) :
  permute x dims = Ok y ->
  shape y = map (nthZ (shape x)) dims /\
  forall idx,
    data y idx =
    data x (map (fun j => nthZ idx (index_of j dims)) (seq 0 (length dims))).
Proof.
  unfold permute. destruct (is_permutation dims (length (shape x))); [| discriminate].
  intro E. injection E as <-. split; reflexivity.
Qed.

Lemma unfold_data {A : Type} (x y : Tensor A) (dimension : nat) (size step : Z) :
  unfold x dimension size step = Ok y ->
  forall idx,
    data y idx =
    data x (set_nth dimension (nthZ (removelast idx) dimension * step + last idx 0)
              (removelast idx)).
Proof.
  unfold unfold. destruct (nth_error (shape x) dimension); [| discriminate].
  destruct (_ || _); [discriminate |]. destruct (step <=? 0); [discriminate |].
  intro E. injection E as <-. reflexivity.
Qed.

Lemma F_pad_data {float : Type} `{Torch float} (x y : Tensor float) (pad : list Z) :
  F_pad x pad = Ok y ->
  forall idx,
    data y idx =
    match pad_src_rev (rev (shape x)) pad (rev idx) with
    | Some r => data x (rev r)
    | None => fzero
    end.
Proof.
  unfold F_pad. intro E. inv_bind E. injection E as <-. reflexivity.
Qed.

Lemma horner_step (a n i : Z) :
  0 <= i < n -> (a * n + i) mod n = i /\ (a * n + i) / n = a.
Proof.
  intro Hi. split.
  - rewrite Z.add_comm, Z.mod_add by lia. apply Z.mod_small. exact Hi.
  - rewrite Z.div_add_l by lia. rewrite Z.div_small by lia. lia.
Qed.

Lemma unravel_patch_index (b k c p q b0 ki kj cc i j : Z) :
  0 <= b0 < b -> 0 <= ki < k -> 0 <= kj < k -> 0 <= cc < c ->
  0 <= i < p -> 0 <= j < q ->
  unravel [b; k; k; c; p; q]
    (ravel [b; k * k * c; p; q] [b0; (ki * k + kj) * c + cc; i; j])
  = [b0; ki; kj; cc; i; j].
Proof.
  intros Hb Hki Hkj Hc Hi Hj.
  replace (ravel [b; k * k * c; p; q] [b0; (ki * k + kj) * c + cc; i; j])
    with (((((b0 * k + ki) * k + kj) * c + cc) * p + i) * q + j)
    by (cbn [ravel combine fold_left fst snd]; ring).
  unfold unravel. cbn [rev app unravel_rev].
  destruct (horner_step ((((b0 * k + ki) * k + kj) * c + cc) * p + i) Hj) as [-> ->].
  destruct (horner_step (((b0 * k + ki) * k + kj) * c + cc) Hi) as [-> ->].
  destruct (horner_step ((b0 * k + ki) * k + kj) Hc) as [-> ->].
  destruct (horner_step (b0 * k + ki) Hkj) as [-> ->].
  destruct (horner_step b0 Hki) as [-> ->].
  rewrite (Z.mod_small b0 b Hb). reflexivity.
Qed.

(** X5: what the patches hold, for image sides and a stride below 2^53
    (where the pads the code computes through its floating-point ceiling
    are the ones written here).  Whenever the extraction returns, channel
    (ki * kernel + kj) * c + cc of the output at grid position (i, j) is
    channel cc of the input at row i * stride + ki - pad_col / 2 and column
    j * stride + kj - pad_row / 2, or zero when that position falls in the
    padding. *)
Theorem extract_image_patches_contents :
  forall (float : Type) (T : Torch float) (x y : Tensor float)
         (b c h w kernel stride dilation : Z),
    shape x = [b; c; h; w] ->
    0 <= h < 2 ^ 53 -> 0 <= w < 2 ^ 53 -> stride < 2 ^ 53 ->
    extract_image_patches x kernel stride dilation = Ok y ->
    let pad_row := (- (- h / stride) - 1) * stride + (kernel - 1) * dilation + 1 - h in
    let pad_col := (- (- w / stride) - 1) * stride + (kernel - 1) * dilation + 1 - w in
    forall b0 ki kj cc i j,
      0 <= b0 < b -> 0 <= ki < kernel -> 0 <= kj < kernel -> 0 <= cc < c ->
      0 <= i < nthZ (shape y) 2 -> 0 <= j < nthZ (shape y) 3 ->
      data y [b0; (ki * kernel + kj) * c + cc; i; j] =
      let row := i * stride + ki - pad_col / 2 in
      let col := j * stride + kj - pad_row / 2 in
      if (0 <=? col) && (col <? w) && ((0 <=? row) && (row <? h))
      then data x [b0; cc; row; col]
      else fzero.
Proof.
  intros float T x y b c h w kernel stride dilation Hsh Bh Bw Bs E pad_row pad_col
    b0 ki kj cc i j Hb0 Hki Hkj Hcc Hi Hj.
  assert (Hs : stride <> 0).
  { intros ->. unfold extract_image_patches in E. rewrite Hsh in E. discriminate E. }
  pose proof (@extract_image_patches_char _ _ x b c h w kernel stride dilation Hsh Hs)
    as HC.
  cbv zeta in HC. rewrite E in HC. fold pad_row pad_col in HC.
  destruct HC as [_ [Hst [_ [_ [_ [_ Sy]]]]]].
  rewrite Sy in Hi, Hj. cbn [nthZ nth] in Hi, Hj.
  unfold extract_image_patches in E. rewrite Hsh in E. unfold math_ceil_div in E.
  rewrite (proj2 (Z.eqb_neq stride 0) Hs) in E. cbn [bind] in E.
  fold pad_row pad_col in E.
  apply bind_Ok in E. destruct E as [x1 [E1 E]].
  apply bind_Ok in E. destruct E as [x2 [E2 E]].
  apply bind_Ok in E. destruct E as [x3 [E3 E]].
  apply bind_Ok in E. destruct E as [x4 [E4 E]].
  pose proof (@F_pad_4d _ _ x b c h w (pad_row / 2) (pad_row - pad_row / 2)
                (pad_col / 2) (pad_col - pad_col / 2) Hsh) as HP.
  rewrite E1 in HP. destruct HP as [_ [_ S1]].
  pose proof (@unfold_char _ x1 2 kernel stride _ ltac:(rewrite S1; reflexivity)) as HU.
  rewrite E2 in HU. destruct HU as [_ [_ S2]]. rewrite S1 in S2. cbn [set_nth app] in S2.
  pose proof (@unfold_char _ x2 3 kernel stride _ ltac:(rewrite S2; reflexivity)) as HV.
  rewrite E3 in HV. destruct HV as [_ [_ S3]]. rewrite S2 in S3. cbn [set_nth app] in S3.
  destruct (permute_inv _ _ E4) as [S4 D4]. rewrite S3 in S4. cbn [map nthZ nth] in S4.
  rewrite (view_data _ _ E). unfold contiguous. rewrite S4, Sy.
  replace (h + pad_col / 2 + (pad_col - pad_col / 2)) with (h + pad_col) by ring.
  replace (w + pad_row / 2 + (pad_row - pad_row / 2)) with (w + pad_row) by ring.
  rewrite unravel_patch_index by assumption.
  rewrite D4. cbn [length seq map index_of Nat.eqb nthZ nth].
  rewrite (unfold_data _ _ _ _ E3). cbn [removelast last set_nth nthZ nth].
  rewrite (unfold_data _ _ _ _ E2). cbn [removelast last set_nth nthZ nth].
  rewrite (F_pad_data _ _ E1). rewrite Hsh.
  cbn [rev app pad_src_rev].
  destruct ((0 <=? j * stride + kj - pad_row / 2) && (j * stride + kj - pad_row / 2 <? w));
    cbn [andb]; [| reflexivity].
  destruct ((0 <=? i * stride + ki - pad_col / 2) && (i * stride + ki - pad_col / 2 <? h));
    cbn [option_map rev app]; reflexivity.
Qed.

(** ** Base wrapper: stages in order, masks resampled *)

Lemma dict_set_absent {V : Type} (k : string) (v : V) (d : dict V) :
  ~ In k (keys d) -> dict_set k v d = d ++ [(k, v)].
Proof.
  unfold keys. induction d as [| [a w] d IH]; simpl; intro Hk.
  - reflexivity.
  - destruct (String.eqb_spec a k) as [-> | _]; [contradiction Hk; left; reflexivity |].
    rewrite IH; [reflexivity |]. intro H. apply Hk. right. exact H.
Qed.

Lemma forward_loop_order {float : Type} `{Torch float}
  (tensor_list : NestedTensor float) :
  forall (xs : dict (Tensor float)) (acc out : dict (NestedTensor float)),
    NoDup (keys acc ++ keys xs) ->
    BackboneBase_forward_loop tensor_list xs acc = Ok out ->
    map (fun entry => (fst entry, tensors (snd entry))) out =
    map (fun entry => (fst entry, tensors (snd entry))) acc ++ xs.
Proof.
  induction xs as [| [k x] xs IH]; intros acc out Hnd E.
  - simpl in E. injection E as <-. rewrite app_nil_r. reflexivity.
  - simpl in E. destruct (mask tensor_list) as [m |]; [| discriminate E].
    apply bind_Ok in E. destruct E as [r [Hi E]].
    apply bind_Ok in E. destruct E as [mk [Hg E]].
    assert (Hk : ~ In k (keys acc)).
    { intro Hin. simpl in Hnd. apply NoDup_remove_2 in Hnd. apply Hnd.
      apply in_or_app. left. exact Hin. }
    rewrite (@dict_set_absent _ k (mkNestedTensor x (Some mk)) acc Hk) in E.
    assert (Hnd' : NoDup (keys (acc ++ [(k, mkNestedTensor x (Some mk))]) ++ keys xs)).
    { unfold keys in *. rewrite map_app, <- app_assoc. exact Hnd. }
    rewrite (IH _ _ Hnd' E), map_app, <- app_assoc. reflexivity.
Qed.

(** X6: when the forward of the base wrapper returns, its entries are the
    stages of the wrapped network, with the same keys and feature maps in
    the same order, one entry per stage. *)
Theorem BackboneBase_forward_keeps_stage_order :
  forall (float : Type) (T : Torch float) (self : BackboneBase float)
         (tensor_list : NestedTensor float) (xs : dict (Tensor float))
         (out : dict (NestedTensor float)),
    body self (tensors tensor_list) = Ok xs ->
    NoDup (keys xs) ->
    BackboneBase_forward self tensor_list = Ok out ->
    map (fun entry => (fst entry, tensors (snd entry))) out = xs /\
    keys out = keys xs /\
    length out = length xs.
Proof.
  intros float T self tensor_list xs out Hbody Hnd E.
  unfold BackboneBase_forward in E. rewrite Hbody in E. cbn [bind] in E.
  pose proof (@forward_loop_order _ _ tensor_list xs [] out Hnd E) as Hmap.
  cbn [map app] in Hmap. split; [exact Hmap |].
  rewrite <- Hmap. unfold keys. rewrite map_map, length_map. split; reflexivity.
Qed.

Lemma forward_step_mask {float : Type} `{Torch float}
  (m : Tensor bool) (x r : Tensor float) (mk : Tensor bool) (b h w : Z) :
  shape m = [b; h; w] ->
  F_interpolate (to_float (unsqueeze0 m)) (last2 (shape x)) = Ok r ->
  getitem0 (to_torch_bool r) = Ok mk ->
  exists h' w',
    last2 (shape x) = [h'; w'] /\ shape mk = [b; h'; w'] /\
    forall bi i j,
      data mk [bi; i; j] =
      to_bool (of_bool (data m [bi; nearest_src h h' i; nearest_src w w' j])).
Proof.
  intros Hm Hi Hg. unfold F_interpolate in Hi. cbn [to_float unsqueeze0 shape] in Hi.
  rewrite Hm in Hi.
  destruct (negb (length (last2 (shape x)) =? length [h; w])%nat) eqn:Hlen;
    [discriminate Hi |].
  apply negb_false_iff, Nat.eqb_eq in Hlen.
  destruct (last2 (shape x)) as [| h' [| w' [| z l]]]; try discriminate Hlen.
  cbn [negb length Nat.leb andb] in Hi.
  destruct (_ && _); [| discriminate Hi].
  injection Hi as <-.
  unfold getitem0 in Hg. cbn [to_torch_bool shape] in Hg.
  injection Hg as <-. exists h', w'. split; [reflexivity |]. split; [reflexivity |].
  intros bi i j. reflexivity.
Qed.

Lemma forward_loop_mask_values {float : Type} `{Torch float}
  (tensor_list : NestedTensor float) (m : Tensor bool) (b h w : Z)
  (Q : NestedTensor float -> Prop) :
  mask tensor_list = Some m -> shape m = [b; h; w] ->
  (forall x mk h' w',
     last2 (shape x) = [h'; w'] -> shape mk = [b; h'; w'] ->
     (forall bi i j,
        data mk [bi; i; j] =
        to_bool (of_bool (data m [bi; nearest_src h h' i; nearest_src w w' j]))) ->
     Q (mkNestedTensor x (Some mk))) ->
  forall (xs : dict (Tensor float)) (acc out : dict (NestedTensor float)),
    BackboneBase_forward_loop tensor_list xs acc = Ok out ->
    (forall name o, In (name, o) acc -> Q o) ->
    forall name o, In (name, o) out -> Q o.
Proof.
  intros Hm Hsh HQ. induction xs as [| [k x] xs IH]; intros acc out E Hacc.
  - simpl in E. injection E as <-. exact Hacc.
  - simpl in E. rewrite Hm in E.
    apply bind_Ok in E. destruct E as [r [Hi E]].
    apply bind_Ok in E. destruct E as [mk [Hg E]].
    apply (IH _ _ E). intros name o Hin.
    apply dict_set_In in Hin. destruct Hin as [Heq | Hin]; [| exact (Hacc _ _ Hin)].
    injection Heq as -> ->.
    destruct (@forward_step_mask _ _ m x r mk b h w Hsh Hi Hg) as [h' [w' [El [Sm Dm]]]].
    exact (HQ x mk h' w' El Sm Dm).
Qed.

(** X7: for numerics in which conversion of a boolean to float and back
    gives the boolean again and the nearest-neighbour kernel is the
    single-precision one ([nearest_float32]: the source index of [i] among
    [h] rows for [h'] output rows is min(floorf(i * scale), h - 1) with
    scale = (float) h / h'), every mask the base wrapper returns has the
    input's batch size and the feature map's height and width, and its
    value at (bi, i, j) is the input mask's value at (bi, source index of
    i, source index of j).  The source indices lie below the input's
    height and width. *)
Theorem BackboneBase_forward_mask_values :
  forall (float : Type) (T : Torch float) (self : BackboneBase float)
         (tensor_list : NestedTensor float)
         (out : dict (NestedTensor float)) (m : Tensor bool) (b h w : Z),
    (forall v, to_bool (of_bool v) = v) ->
    (forall i o d, nearest_src i o d = nearest_float32 i o d) ->
    mask tensor_list = Some m -> shape m = [b; h; w] ->
    BackboneBase_forward self tensor_list = Ok out ->
    forall name o, In (name, o) out ->
      exists mk h' w',
        mask o = Some mk /\
        last2 (shape (tensors o)) = [h'; w'] /\
        shape mk = [b; h'; w'] /\
        forall bi i j,
          data mk [bi; i; j] =
          data m [bi; nearest_float32 h h' i; nearest_float32 w w' j] /\
          nearest_float32 h h' i <= h - 1 /\ nearest_float32 w w' j <= w - 1.
Proof.
  intros float T self tensor_list out m b h w Hconv Hnear Hm Hsh E.
  unfold BackboneBase_forward in E. inv_bind E.
  apply (@forward_loop_mask_values _ _ tensor_list m b h w
           (fun o => exists mk h' w',
              mask o = Some mk /\
              last2 (shape (tensors o)) = [h'; w'] /\
              shape mk = [b; h'; w'] /\
              forall bi i j,
                data mk [bi; i; j] =
                data m [bi; nearest_float32 h h' i; nearest_float32 w w' j] /\
                nearest_float32 h h' i <= h - 1 /\ nearest_float32 w w' j <= w - 1)
           Hm Hsh) with (xs := a) (acc := []); [| exact E | intros ? ? []].
  intros x mk h' w' El Sm Dm. exists mk, h', w'. cbn [mask tensors].
  split; [reflexivity |]. split; [exact El |]. split; [exact Sm |].
  intros bi i j. rewrite Dm, Hconv, !Hnear.
  split; [reflexivity |]. unfold nearest_float32. split; apply Z.le_min_r.
Qed.

(** ** Composition wrapper *)

Lemma Joiner_forward_loop_spec {float : Type}
  (position_embedding : NestedTensor float -> result (Tensor float)) :
  forall (xs : dict (NestedTensor float)) (out0 : list (NestedTensor float))
         (pos0 : list (Tensor float)) out pos,
    Joiner_forward_loop position_embedding xs out0 pos0 = Ok (out, pos) ->
    out = out0 ++ map snd xs /\
    exists ps, pos = pos0 ++ ps /\
               Forall2 (fun x p => position_embedding x = Ok p) (map snd xs) ps.
Proof.
  induction xs as [| [name x] xs IH]; intros out0 pos0 out pos E.
  - simpl in E. injection E as <- <-. split; [rewrite app_nil_r; reflexivity |].
    exists []. split; [rewrite app_nil_r; reflexivity | constructor].
  - simpl in E. apply bind_Ok in E. destruct E as [p [Hp E]].
    destruct (IH _ _ _ _ E) as [-> [ps [-> Hps]]].
    split; [rewrite <- app_assoc; reflexivity |].
    exists (p :: ps). split; [rewrite <- app_assoc; reflexivity |].
    constructor; assumption.
Qed.

Lemma Joiner_forward_loop_raises {float : Type}
  (position_embedding : NestedTensor float -> result (Tensor float)) :
  forall (xs : dict (NestedTensor float)) (out0 : list (NestedTensor float))
         (pos0 : list (Tensor float)) name x e,
    In (name, x) xs -> position_embedding x = Raise e ->
    exists e', Joiner_forward_loop position_embedding xs out0 pos0 = Raise e'.
Proof.
  induction xs as [| [k y] xs IH]; intros out0 pos0 name x e Hin He.
  - contradiction.
  - simpl. destruct (position_embedding y) as [p | e'] eqn:Hy; cbn [bind].
    + destruct Hin as [Heq | Hin]; [injection Heq as _ ->; congruence |].
      exact (IH _ _ name x e Hin He).
    + exists e'. reflexivity.
Qed.

(** X8: when the composition wrapper returns, its first list holds the
    backbone's stages in order, its second list has the same length and
    holds, position by position, the positional encoding of that stage;
    and if the positional encoding raises on some stage, the wrapper
    raises and returns no partial lists. *)
Theorem Joiner_forward_parallel :
  forall (float : Type) (T : Torch float) (self : Joiner float)
         (tensor_list : NestedTensor float),
    (forall out pos,
       Joiner_forward self tensor_list = Ok (out, pos) ->
       exists xs,
         BackboneBase_forward (j_backbone self) tensor_list = Ok xs /\
         out = map snd xs /\
         length pos = length out /\
         Forall2 (fun x p => j_position_embedding self x = Ok p) out pos) /\
    (forall xs name x e,
       BackboneBase_forward (j_backbone self) tensor_list = Ok xs ->
       In (name, x) xs -> j_position_embedding self x = Raise e ->
       exists e', Joiner_forward self tensor_list = Raise e').
Proof.
  intros float T self tensor_list. split.
  - intros out pos E. unfold Joiner_forward in E.
    apply bind_Ok in E. destruct E as [xs [Hxs E]].
    apply Joiner_forward_loop_spec in E. destruct E as [-> [ps [-> Hps]]].
    exists xs. cbn [app]. split; [exact Hxs |]. split; [reflexivity |].
    split; [symmetry; exact (Forall2_length Hps) | exact Hps].
  - intros xs name x e Hxs Hin He. unfold Joiner_forward. rewrite Hxs. cbn [bind].
    exact (Joiner_forward_loop_raises _ _ [] [] _ _ Hin He).
Qed.

(** ** Single-layer selector *)

Lemma dict_get_In {V : Type} (k : string) (d : dict V) (v : V) :
  dict_get k d = Some v -> In (k, v) d.
Proof.
  induction d as [| [a w] d IH]; simpl; [discriminate |].
  destruct (String.eqb_spec a k) as [-> | _].
  - intro E. injection E as ->. left. reflexivity.
  - intro E. right. exact (IH E).
Qed.

Lemma dict_get_None {V : Type} (k : string) (d : dict V) :
  dict_get k d = None <-> ~ In k (keys d).
Proof.
  unfold keys. induction d as [| [a w] d IH]; simpl.
  - tauto.
  - destruct (String.eqb_spec a k) as [-> | Hne].
    + split; [discriminate | intro H; contradiction H; left; reflexivity].
    + rewrite IH. tauto.
Qed.

(** X9: the single-layer selector built without a layer selects key 0 and
    reports the backbone's channel count; built with a layer whose integer
    value is i, it reports 256, 512, 1024, 2048 for i = 0..3, the same
    values counted from the end for i = -4..-1, and raises [IndexError]
    for any other i; a layer that is no integer raises what [int] raises. *)
Theorem IntermediateLayerGetterBackbone_init_num_channels :
  forall (float : Type) (env : Env float) (backbone : BackboneBase float),
    (exists self,
        IntermediateLayerGetterBackbone_init env None backbone = Ok self /\
        ilgb_layer self = "0"%string /\
        ilgb_num_channels self = num_channels backbone) /\
    (forall layer i,
        py_int env layer = Ok i ->
        (0 <= i < 4 ->
         exists self,
           IntermediateLayerGetterBackbone_init env (Some layer) backbone = Ok self /\
           ilgb_layer self = layer /\ ilgb_num_channels self = 256 * 2 ^ i) /\
        (-4 <= i < 0 ->
         exists self,
           IntermediateLayerGetterBackbone_init env (Some layer) backbone = Ok self /\
           ilgb_layer self = layer /\ ilgb_num_channels self = 256 * 2 ^ (i + 4)) /\
        (i < -4 \/ 4 <= i ->
         IntermediateLayerGetterBackbone_init env (Some layer) backbone
         = Raise IndexError)) /\
    (forall layer e,
        py_int env layer = Raise e ->
        IntermediateLayerGetterBackbone_init env (Some layer) backbone = Raise e).
Proof.
  intros float env backbone. split; [| split].
  - eexists. split; [reflexivity |]. split; reflexivity.
  - intros layer i Hi. unfold IntermediateLayerGetterBackbone_init. rewrite Hi.
    cbn [bind]. split; [| split].
    + intro Hr.
      assert (Hc : i = 0 \/ i = 1 \/ i = 2 \/ i = 3) by lia.
      destruct Hc as [-> | [-> | [-> | ->]]];
        (eexists; split; [reflexivity |]; split; reflexivity).
    + intro Hr.
      assert (Hc : i = -4 \/ i = -3 \/ i = -2 \/ i = -1) by lia.
      destruct Hc as [-> | [-> | [-> | ->]]];
        (eexists; split; [reflexivity |]; split; reflexivity).
    + intro Hr. unfold list_getitem. cbn [length Z.of_nat Pos.of_succ_nat Pos.succ].
      destruct ((- (4) <=? i) && (i <? 4)) eqn:Hc; [| reflexivity].
      apply andb_prop in Hc. destruct Hc as [H1 H2].
      apply Z.leb_le in H1. apply Z.ltb_lt in H2. lia.
  - intros layer e He. unfold IntermediateLayerGetterBackbone_init. rewrite He.
    reflexivity.
Qed.

(** X10: when the single-layer selector returns, the result is the stage
    stored under its layer key, with a mask of that feature map's spatial
    shape; when the backbone returns but has no stage under that key, the
    selector raises [KeyError]. *)
Theorem IntermediateLayerGetterBackbone_forward_selects :
  forall (float : Type) (T : Torch float)
         (self : IntermediateLayerGetterBackbone float)
         (tensor_list : NestedTensor float) (xs : dict (Tensor float)),
    body (ilgb_backbone self) (tensors tensor_list) = Ok xs ->
    Forall (fun e => (2 <= length (shape (snd e)))%nat) xs ->
    (forall o,
       IntermediateLayerGetterBackbone_forward self tensor_list = Ok o ->
       In (ilgb_layer self, tensors o) xs /\
       exists m, mask o = Some m /\ last2 (shape m) = last2 (shape (tensors o))) /\
    (forall out,
       BackboneBase_forward (ilgb_backbone self) tensor_list = Ok out ->
       ~ In (ilgb_layer self) (keys xs) ->
       IntermediateLayerGetterBackbone_forward self tensor_list = Raise KeyError).
Proof.
  intros float T self tensor_list xs Hbody Hrank. split.
  - intros o E. unfold IntermediateLayerGetterBackbone_forward in E.
    apply bind_Ok in E. destruct E as [out [Hout E]].
    destruct (dict_get (ilgb_layer self) out) as [x |] eqn:Hget; [| discriminate E].
    injection E as ->. apply dict_get_In in Hget.
    unfold BackboneBase_forward in Hout. rewrite Hbody in Hout. cbn [bind] in Hout.
    apply (@forward_loop_masks _ _ tensor_list xs xs [] out Hrank (incl_refl xs) Hout);
      [intros ? ? [] | exact Hget].
  - intros out Hout Hk. unfold IntermediateLayerGetterBackbone_forward.
    rewrite Hout. cbn [bind].
    destruct (dict_get (ilgb_layer self) out) as [x |] eqn:Hget; [| reflexivity].
    exfalso. apply Hk. apply dict_get_In in Hget.
    unfold BackboneBase_forward in Hout. rewrite Hbody in Hout. cbn [bind] in Hout.
    destruct (@forward_loop_masks _ _ tensor_list xs xs [] out Hrank (incl_refl xs) Hout
                ltac:(intros ? ? []) _ _ Hget) as [Hin _].
    unfold keys. apply in_map_iff. exists (ilgb_layer self, tensors x).
    split; [reflexivity | exact Hin].
Qed.

(** ** Stage identifiers as substrings of parameter names *)

Lemma prefix_spec (p s : string) :
  String.prefix p s = true <-> exists post, s = (p ++ post)%string.
Proof.
  revert s. induction p as [| c p IH]; intro s.
  - split; [intros _; exists s; reflexivity | intros _; destruct s; reflexivity].
  - destruct s as [| d s]; simpl.
    + split; [discriminate | intros [post E]; discriminate E].
    + destruct (ascii_dec c d) as [-> | Hne].
      * rewrite IH. split; intros [post E]; exists post.
        -- rewrite E. reflexivity.
        -- injection E as E. exact E.
      * split; [discriminate | intros [post E]; injection E as E _; congruence].
Qed.

Lemma contains_spec (sub s : string) :
  contains sub s = true <-> exists pre post, s = (pre ++ sub ++ post)%string.
Proof.
  induction s as [| c s IH].
  - cbn [contains]. rewrite orb_false_r, prefix_spec. split.
    + intros [post E]. exists EmptyString, post. exact E.
    + intros [pre [post E]]. destruct pre; [exists post; exact E | discriminate E].
  - cbn [contains]. rewrite orb_true_iff, prefix_spec, IH. split.
    + intros [[post E] | [pre [post E]]].
      * exists EmptyString, post. exact E.
      * exists (String c pre), post. rewrite E. reflexivity.
    + intros [pre [post E]]. destruct pre as [| d pre].
      * left. exists post. exact E.
      * right. injection E as _ E. exists pre, post. exact E.
Qed.

Lemma in_layers_spec (layers_used : list string) (name : string) :
  in_layers layers_used name = true <->
  exists layer pre post, In layer layers_used /\ name = (pre ++ layer ++ post)%string.
Proof.
  unfold in_layers. rewrite existsb_exists. split.
  - intros [layer [Hin Hc]]. apply contains_spec in Hc. destruct Hc as [pre [post E]].
    exists layer, pre, post. split; assumption.
  - intros [layer [pre [post [Hin E]]]]. exists layer. split; [exact Hin |].
    apply contains_spec. exists pre, post. exact E.
Qed.

(** X11: after construction of the base wrapper a parameter is trainable
    exactly when fine-tuning is enabled, it was trainable before, and its
    name has one of the stage identifiers in use as a contiguous
    substring.  With an empty set of identifiers every parameter is frozen;
    with fine-tuning enabled and the empty string among the identifiers no
    parameter is changed. *)
Theorem BackboneBase_init_trainable_names :
  forall (float : Type) (backbone : NNModule float)
         (train_backbone : bool) (num_channels : Z) (return_interm_layers : bool)
         (layers_used : option (list string)) (self : BackboneBase float),
    BackboneBase_init backbone train_backbone num_channels return_interm_layers
      layers_used = Ok self ->
    let used := layers_used_or_default layers_used in
    Forall2 (fun before after =>
               fst after = fst before /\
               (requires_grad (snd after) = true <->
                train_backbone = true /\ requires_grad (snd before) = true /\
                exists layer pre post,
                  In layer used /\ fst before = (pre ++ layer ++ post)%string))
      (named_parameters backbone) (bb_parameters self) /\
    (used = [] ->
     forall name p, In (name, p) (bb_parameters self) -> requires_grad p = false) /\
    (train_backbone = true -> In EmptyString used ->
     bb_parameters self = named_parameters backbone).
Proof.
  intros float backbone train_backbone num_channels return_interm_layers
    layers_used self E used.
  apply BackboneBase_init_parameters in E. fold used in E. rewrite E. clear E.
  split; [| split].
  - induction (named_parameters backbone) as [| [n q] l IH]; cbn [map].
    + constructor.
    + constructor; [| exact IH].
      rewrite freeze_spec. cbn [fst snd requires_grad]. split; [reflexivity |].
      rewrite <- in_layers_spec, !andb_true_iff. tauto.
  - intros Hused name p Hp. apply in_map_iff in Hp. destruct Hp as [[n q] [Hf _]].
    rewrite freeze_spec, Hused in Hf. injection Hf as _ <-.
    cbn [in_layers existsb]. rewrite andb_false_r. apply andb_false_r.
  - intros -> Hempty.
    assert (Hall : forall name, in_layers used name = true).
    { intro name. apply in_layers_spec. exists EmptyString, EmptyString, name.
      split; [exact Hempty | reflexivity]. }
    induction (named_parameters backbone) as [| [n [g]] l IH]; cbn [map].
    + reflexivity.
    + rewrite freeze_spec, Hall, IH. cbn [requires_grad andb].
      rewrite andb_true_r. reflexivity.
Qed.

(** ** Construction entry point: what each branch builds *)

Lemma extract_image_patches_channels {float : Type} `{Torch float}
  (x y : Tensor float) (b c h w kernel stride dilation : Z) :
  shape x = [b; c; h; w] ->
  extract_image_patches x kernel stride dilation = Ok y ->
  nthZ (shape y) 1 = kernel ^ 2 * c.
Proof.
  intros Hsh E.
  assert (Hs : stride <> 0).
  { intros ->. unfold extract_image_patches in E. rewrite Hsh in E. discriminate E. }
  pose proof (@extract_image_patches_char _ _ x b c h w kernel stride dilation Hsh Hs)
    as HC.
  cbv zeta in HC. rewrite E in HC. destruct HC as [_ [_ [_ [_ [_ [_ Sy]]]]]].
  rewrite Sy, Z.pow_2_r. reflexivity.
Qed.

(** X12: for a model kind other than detr, the names n/a and patch never
    fail and never consult the catalog or the positional encoding: n/a
    gives the identity variant, reporting 3 channels, whose forward
    returns its input; patch gives the patch backbone with the configured
    kernel, stride and dilation, whose reported channel count is the
    channel count of every feature map it returns on a 3-channel input. *)
Theorem build_backbone_without_catalog :
  forall (float : Type) (T : Torch float) (env : Env float) (args : Args),
    model args <> "detr"%string ->
    (backbone args = "n/a"%string ->
     exists self,
       build_backbone env args = Ok (NoBackboneModel float self) /\
       nb_num_channels self = 3 /\
       forall tensor_list : NestedTensor float,
         NoBackbone_forward self tensor_list = tensor_list) /\
    (backbone args = "patch"%string ->
     exists self,
       build_backbone env args = Ok (PatchBackboneModel float self) /\
       pb_kernel self = patch_kernel args /\
       pb_stride self = patch_stride args /\
       pb_dilation self = patch_dilation args /\
       forall tensor_list output b h w,
         shape (tensors tensor_list) = [b; 3; h; w] ->
         PatchBackbone_forward self tensor_list = Ok output ->
         nthZ (shape (tensors output)) 1 = pb_num_channels self).
Proof.
  intros float T env args Hm.
  assert (Em : String.eqb (model args) "detr" = false)
    by (apply String.eqb_neq; exact Hm).
  split.
  - intro Hb. exists NoBackbone_init. split.
    + unfold build_backbone. rewrite Em, Hb. reflexivity.
    + split; [reflexivity |]. intro tensor_list. reflexivity.
  - intro Hb.
    exists (PatchBackbone_init (patch_kernel args) (patch_stride args)
              (patch_dilation args)).
    split.
    + unfold build_backbone. rewrite Em, Hb. reflexivity.
    + split; [reflexivity |]. split; [reflexivity |]. split; [reflexivity |].
      intros tensor_list output b h w Hsh E. unfold PatchBackbone_forward in E.
      apply bind_Ok in E. destruct E as [y [Hy E]]. injection E as <-.
      cbn [tensors PatchBackbone_init pb_kernel pb_stride pb_dilation
           pb_num_channels] in *.
      exact (extract_image_patches_channels _ _ _ _ Hsh Hy).
Qed.

Lemma Backbone_init_inv {float : Type} (env : Env float) (name : string)
  (train_backbone return_interm_layers dilation : bool)
  (layers_used : option (list string)) (self : BackboneBase float) :
  Backbone_init env name train_backbone return_interm_layers dilation layers_used
  = Ok self ->
  exists constructor net,
    torchvision_models env name = Some constructor /\
    constructor [false; false; dilation] (is_main_process env) = Ok net /\
    IntermediateLayerGetter net
      (if return_interm_layers
       then [("layer1", "0"); ("layer2", "1"); ("layer3", "2"); ("layer4", "3")]%string
       else [("layer4", "0")]%string) = Ok (body self) /\
    num_channels self = (if str_in name ["resnet18"; "resnet34"]%string then 512 else 2048) /\
    bb_parameters self =
    map (freeze train_backbone (layers_used_or_default layers_used))
      (named_parameters net).
Proof.
  unfold Backbone_init. intro E.
  destruct (torchvision_models env name) as [constructor |]; [| discriminate E].
  apply bind_Ok in E. destruct E as [net [Hnet E]].
  exists constructor, net. split; [reflexivity |]. split; [exact Hnet |].
  pose proof (BackboneBase_init_parameters _ _ _ _ _ E) as Hp.
  unfold BackboneBase_init in E. apply bind_Ok in E. destruct E as [bd [Hbd E]].
  injection E as <-. cbn [body num_channels bb_parameters] in *.
  split; [exact Hbd |]. split; [reflexivity | exact Hp].
Qed.

Lemma freeze_all (layers_used : list string) (l : dict TorchParameter) :
  forall name p, In (name, p) (map (freeze false layers_used) l) ->
                 requires_grad p = false.
Proof.
  intros name p Hp. apply in_map_iff in Hp. destruct Hp as [[n q] [Hf _]].
  rewrite freeze_spec in Hf. injection Hf as _ <-. cbn [requires_grad andb].
  apply andb_false_r.
Qed.

(** X13: for the model kind detr, whenever the entry point returns, the
    result is a composition wrapper around the named catalog architecture
    (built with dilation only in the last stage) and the positional
    encoding; it reports the backbone's channel count, 512 for resnet18
    and resnet34 and 2048 otherwise; all four stages are returned exactly
    when [masks] is set; and with a learning rate of the backbone that is
    not positive every parameter of the backbone is frozen. *)
Theorem build_backbone_detr :
  forall (float : Type) (env : Env float) (args : Args) (m : Model float),
    model args = "detr"%string ->
    build_backbone env args = Ok m ->
    exists constructor net self,
      m = JoinerModel self /\
      torchvision_models env (backbone args) = Some constructor /\
      constructor [false; false; dilation args] (is_main_process env) = Ok net /\
      build_position_encoding env args = Ok (j_position_embedding self) /\
      j_num_channels self = Some (num_channels (j_backbone self)) /\
      num_channels (j_backbone self) =
      (if str_in (backbone args) ["resnet18"; "resnet34"]%string then 512 else 2048) /\
      IntermediateLayerGetter net
        (if masks args
         then [("layer1", "0"); ("layer2", "1"); ("layer3", "2"); ("layer4", "3")]%string
         else [("layer4", "0")]%string) = Ok (body (j_backbone self)) /\
      keys (bb_parameters (j_backbone self)) = keys (named_parameters net) /\
      ((lr_backbone args <= 0)%Q ->
       forall name p, In (name, p) (bb_parameters (j_backbone self)) ->
                      requires_grad p = false).
Proof.
  intros float env args m Hm E. unfold build_backbone in E. rewrite Hm in E.
  cbn [String.eqb Ascii.eqb Bool.eqb] in E.
  apply bind_Ok in E. destruct E as [bb [Hbb E]].
  apply bind_Ok in E. destruct E as [pe [Hpe E]].
  injection E as <-.
  destruct (Backbone_init_inv _ _ _ _ _ _ Hbb)
    as [constructor [net [Hc [Hnet [Hbody [Hnc Hp]]]]]].
  exists constructor, net. eexists. split; [reflexivity |].
  cbn [j_backbone j_position_embedding j_num_channels].
  split; [exact Hc |]. split; [exact Hnet |]. split; [exact Hpe |].
  split; [reflexivity |]. split; [exact Hnc |]. split; [exact Hbody |]. split.
  - rewrite Hp. unfold keys. rewrite map_map. apply map_ext.
    intros [n q]. rewrite freeze_spec. reflexivity.
  - intros Hlr name p Hin. rewrite Hp in Hin.
    apply Qle_bool_iff in Hlr. rewrite Hlr in Hin. cbn [negb] in Hin.
    exact (freeze_all _ _ _ _ Hin).
Qed.

Lemma layers_up_to (n : Z) :
  0 <= n < 4 ->
  map (fun i => ("layer" ++ str_of_int i)%string) (range 1 (n + 2))
  = firstn (Z.to_nat (n + 1)) default_layers_used.
Proof.
  intro Hn. assert (Hc : n = 0 \/ n = 1 \/ n = 2 \/ n = 3) by lia.
  destruct Hc as [-> | [-> | [-> | ->]]]; reflexivity.
Qed.

Lemma list_getitem_channels (n : Z) :
  0 <= n < 4 -> list_getitem [256; 512; 1024; 2048] n = Ok (256 * 2 ^ n).
Proof.
  intro Hn. assert (Hc : n = 0 \/ n = 1 \/ n = 2 \/ n = 3) by lia.
  destruct Hc as [-> | [-> | [-> | ->]]]; reflexivity.
Qed.

(** X14: for another model kind and the backbone resnet50, whenever the
    entry point returns, the result is a single-layer selector over the
    catalog's resnet50.  Without an intermediate layer it selects key 0 of
    the last stage alone, reports 2048 channels and fine-tunes by the four
    default stages; with intermediate layer i in 0..3 it selects key i
    among all four stages, reports 256 * 2^i channels, and only the stages
    layer1 .. layer(i+1) can stay trainable. *)
Theorem build_backbone_resnet50 :
  forall (float : Type) (env : Env float) (args : Args) (m : Model float),
    model args <> "detr"%string ->
    backbone args = "resnet50"%string ->
    build_backbone env args = Ok m ->
    exists constructor net self,
      m = IntermediateLayerGetterBackboneModel self /\
      torchvision_models env "resnet50" = Some constructor /\
      constructor [false; false; dilation args] (is_main_process env) = Ok net /\
      num_channels (ilgb_backbone self) = 2048 /\
      (interm_layer args = None ->
       ilgb_layer self = "0"%string /\ ilgb_num_channels self = 2048 /\
       IntermediateLayerGetter net [("layer4", "0")]%string
       = Ok (body (ilgb_backbone self)) /\
       bb_parameters (ilgb_backbone self) =
       map (freeze (negb (Qle_bool (lr_backbone args) 0)) default_layers_used)
         (named_parameters net)) /\
      (forall layer n,
         interm_layer args = Some layer -> layer <> EmptyString ->
         py_int env layer = Ok n -> 0 <= n < 4 ->
         ilgb_layer self = layer /\ ilgb_num_channels self = 256 * 2 ^ n /\
         IntermediateLayerGetter net
           [("layer1", "0"); ("layer2", "1"); ("layer3", "2"); ("layer4", "3")]%string
         = Ok (body (ilgb_backbone self)) /\
         bb_parameters (ilgb_backbone self) =
         map (freeze (negb (Qle_bool (lr_backbone args) 0))
                (firstn (Z.to_nat (n + 1)) default_layers_used))
           (named_parameters net)).
Proof.
  intros float env args m Hm Hb E. unfold build_backbone in E.
  destruct (String.eqb_spec (model args) "detr") as [Em | _]; [contradiction |].
  rewrite Hb in E. cbn [String.eqb Ascii.eqb Bool.eqb] in E.
  apply bind_Ok in E. destruct E as [lu [Hlu E]].
  apply bind_Ok in E. destruct E as [bb [Hbb E]].
  apply bind_Ok in E. destruct E as [g [Hg E]].
  injection E as <-.
  destruct (Backbone_init_inv _ _ _ _ _ _ Hbb)
    as [constructor [net [Hc [Hnet [Hbody [Hnc Hp]]]]]].
  cbn in Hnc.
  exists constructor, net, g. split; [reflexivity |].
  split; [exact Hc |]. split; [exact Hnet |].
  unfold IntermediateLayerGetterBackbone_init in Hg.
  apply bind_Ok in Hg. destruct Hg as [nc [Hncg Hg]]. injection Hg as <-.
  cbn [ilgb_backbone ilgb_layer ilgb_num_channels].
  split; [exact Hnc |]. split.
  - intro Hnone. rewrite Hnone in *. cbn [truthy] in *.
    injection Hlu as <-. injection Hncg as <-.
    split; [reflexivity |]. split; [exact Hnc |]. split; [exact Hbody | exact Hp].
  - intros layer n Hsome Hne Hint Hn. rewrite Hsome in *.
    assert (Ht : truthy (Some layer) = true) by (destruct layer; [contradiction | reflexivity]).
    rewrite Ht in *. rewrite Hint in *. cbn [bind] in *.
    injection Hlu as <-. rewrite list_getitem_channels in Hncg by exact Hn.
    injection Hncg as <-.
    split; [reflexivity |]. split; [reflexivity |]. split; [exact Hbody |].
    rewrite Hp. cbn [layers_used_or_default]. rewrite layers_up_to by exact Hn.
    reflexivity.
Qed.

(** ** Frozen normalization layer: the dictionary, and a fresh layer *)

Lemma dict_get_del_eq {V : Type} (k : string) (d : dict V) :
  dict_get k (dict_del k d) = None.
Proof.
  unfold dict_del. induction d as [| [a v] d IH]; simpl.
  - reflexivity.
  - destruct (String.eqb_spec a k) as [-> | Hne]; simpl.
    + exact IH.
    + destruct (String.eqb_spec a k); [contradiction | exact IH].
Qed.

(** X15: the dictionary after the layer's loader is the dictionary before
    without the counter's entry: the counter's key is gone, every other
    key keeps its value and its place, the dictionary is left as it was
    when it had no such entry, no entry is added, and a second call on
    the resulting dictionary changes nothing more. *)
Theorem load_from_state_dict_dictionary :
  forall (float : Type) (self : FrozenBatchNorm2d float)
         (state_dict : dict (Tensor float)) (prefix : string) (strict : bool)
         (missing_keys unexpected_keys : list string) (error_msgs : list load_error),
    let key := num_batches_tracked_key prefix in
    let after :=
      ls_state_dict (FrozenBatchNorm2d_load_from_state_dict self state_dict prefix
                       strict missing_keys unexpected_keys error_msgs) in
    after = filter (fun entry => negb (String.eqb (fst entry) key)) state_dict /\
    dict_get key after = None /\
    ~ In key (keys after) /\
    (forall k, k <> key -> dict_get k after = dict_get k state_dict) /\
    (dict_in key state_dict = false -> after = state_dict) /\
    (forall k, In k (keys after) -> In k (keys state_dict)) /\
    (forall (self' : FrozenBatchNorm2d float) strict' missing' unexpected' errors',
        ls_state_dict (FrozenBatchNorm2d_load_from_state_dict self' after prefix
                         strict' missing' unexpected' errors') = after).
Proof.
  intros float self state_dict prefix strict missing_keys unexpected_keys error_msgs
    key after.
  unfold after, key. rewrite load_state_dict_of, Module_load_state_dict.
  split; [reflexivity |].
  split; [apply dict_get_del_eq |].
  split.
  { intro Hin. apply keys_dict_del in Hin. destruct Hin as [_ Hne].
    contradiction Hne. reflexivity. }
  split; [intros k Hk; apply dict_get_del_ne; exact Hk |].
  split; [intro Habs; apply dict_del_absent; exact Habs |].
  split; [intros k Hk; apply keys_dict_del in Hk; exact (proj1 Hk) |].
  intros self' strict' missing' unexpected' errors'.
  rewrite load_state_dict_of, Module_load_state_dict.
  apply dict_del_absent, dict_in_del.
Qed.

Lemma load_from_state_dict_dictionary_witness :
  dict_get "bn1.num_batches_tracked"
    (ls_state_dict
       (FrozenBatchNorm2d_load_from_state_dict bn1 (checkpoint true) "bn1." true
          [] [] [])) = None /\
  dict_get "bn1.bias"
    (ls_state_dict
       (FrozenBatchNorm2d_load_from_state_dict bn1 (checkpoint true) "bn1." true
          [] [] [])) = Some (vec [5; 7]) /\
  ls_state_dict
    (FrozenBatchNorm2d_load_from_state_dict bn1 (checkpoint false) "bn1." true [] [] [])
  = checkpoint false.
Proof.
  destruct (@load_from_state_dict_dictionary Z bn1 (checkpoint true) "bn1." true
              [] [] []) as [_ [Hgone [_ [Hkept _]]]].
  destruct (@load_from_state_dict_dictionary Z bn1 (checkpoint false) "bn1." true
              [] [] []) as [_ [_ [_ [_ [Habsent _]]]]].
  split; [exact Hgone |]. split.
  - rewrite (Hkept "bn1.bias"%string); [reflexivity | discriminate].
  - apply Habsent. reflexivity.
Defined.

Lemma FrozenBatchNorm2d_init_has_size {float : Type} `{Torch float}
  (n : Z) (self : FrozenBatchNorm2d float) :
  FrozenBatchNorm2d_init n = Ok self ->
  0 <= n /\ has_size self n /\
  (forall idx, data (weight self) idx = fone /\ data (bias self) idx = fzero /\
               data (running_mean self) idx = fzero /\
               data (running_var self) idx = fone).
Proof.
  unfold FrozenBatchNorm2d_init, torch_full.
  destruct (Z.ltb_spec n 0) as [Hn | Hn]; [discriminate |].
  cbn [bind]. intro E. injection E as <-.
  split; [exact Hn |]. split; [repeat split |].
  intro idx. repeat split.
Qed.

Lemma load_saved_state {float : Type}
  (self : FrozenBatchNorm2d float) (state_dict : dict (Tensor float))
  (prefix : string) (strict : bool)
  (missing_keys unexpected_keys : list string) (error_msgs : list load_error)
  (n : Z) :
  has_size self n -> saved_state prefix n state_dict ->
  let r := FrozenBatchNorm2d_load_from_state_dict self state_dict prefix strict
             missing_keys unexpected_keys error_msgs in
  ls_missing_keys r = missing_keys /\
  ls_unexpected_keys r = unexpected_keys /\
  ls_error_msgs r = error_msgs /\
  dict_get (prefix ++ "weight")%string state_dict = Some (weight (ls_self r)) /\
  dict_get (prefix ++ "bias")%string state_dict = Some (bias (ls_self r)) /\
  dict_get (prefix ++ "running_mean")%string state_dict
    = Some (running_mean (ls_self r)) /\
  dict_get (prefix ++ "running_var")%string state_dict
    = Some (running_var (ls_self r)).
Proof.
  intros [Hw [Hb [Hm Hv]]] Hs r. unfold r. rewrite load_state_dict_of.
  set (key := num_batches_tracked_key prefix).
  destruct (saved_state_no_unexpected Hs) as [Hextra Hfilter].
  fold key in Hextra, Hfilter.
  destruct (saved_buffer_lookup (name := "weight"%string) Hs) as [tw [Ew [Ew' Sw]]];
    [simpl; auto |].
  destruct (saved_buffer_lookup (name := "bias"%string) Hs) as [tb [Eb [Eb' Sb]]];
    [simpl; auto |].
  destruct (saved_buffer_lookup (name := "running_mean"%string) Hs)
    as [tm [Em [Em' Sm]]]; [simpl; auto |].
  destruct (saved_buffer_lookup (name := "running_var"%string) Hs)
    as [tv [Ev [Ev' Sv]]]; [simpl; auto 6 |].
  fold key in Ew, Eb, Em, Ev.
  unfold Module_load_from_state_dict.
  cbn [local_state load_local keys map fst].
  rewrite Ew, Eb, Em, Ev, Sw, Sb, Sm, Sv, Hw, Hb, Hm, Hv.
  rewrite !list_eqb_refl. cbn [negb].
  change ["weight"; "bias"; "running_mean"; "running_var"]%string with buffer_names.
  rewrite Hextra, Hfilter, andb_false_r.
  cbn. rewrite Ew', Eb', Em', Ev'.
  destruct strict; rewrite ?app_nil_r; repeat split; reflexivity.
Qed.

(** X16: [FrozenBatchNorm2d(n)] raises for a negative [n] and otherwise
    gives a layer with all-one weight and variance and all-zero bias and
    mean, [n] entries each; restoring into it a saved state of [n]
    channels, with or without the counter, replaces the four buffers by
    the saved tensors and records nothing as missing, unexpected or
    erroneous. *)
Theorem FrozenBatchNorm2d_init_then_load :
  forall (float : Type) (T : Torch float) (n : Z),
    (n < 0 -> FrozenBatchNorm2d_init n = Raise RuntimeError) /\
    (0 <= n ->
     exists self,
       FrozenBatchNorm2d_init n = Ok self /\
       (forall idx, data (weight self) idx = fone /\ data (bias self) idx = fzero /\
                    data (running_mean self) idx = fzero /\
                    data (running_var self) idx = fone) /\
       forall (state_dict : dict (Tensor float)) (prefix : string) (strict : bool)
              (missing_keys unexpected_keys : list string)
              (error_msgs : list load_error),
         saved_state prefix n state_dict ->
         let r := FrozenBatchNorm2d_load_from_state_dict self state_dict prefix strict
                    missing_keys unexpected_keys error_msgs in
         ls_missing_keys r = missing_keys /\
         ls_unexpected_keys r = unexpected_keys /\
         ls_error_msgs r = error_msgs /\
         dict_get (prefix ++ "weight")%string state_dict = Some (weight (ls_self r)) /\
         dict_get (prefix ++ "bias")%string state_dict = Some (bias (ls_self r)) /\
         dict_get (prefix ++ "running_mean")%string state_dict
           = Some (running_mean (ls_self r)) /\
         dict_get (prefix ++ "running_var")%string state_dict
           = Some (running_var (ls_self r))).
Proof.
  intros float T n. split.
  - intro Hn. unfold FrozenBatchNorm2d_init, torch_full.
    rewrite (proj2 (Z.ltb_lt n 0) Hn). reflexivity.
  - intro Hn.
    destruct (FrozenBatchNorm2d_init n) as [self | e] eqn:E.
    + destruct (FrozenBatchNorm2d_init_has_size _ E) as [_ [Hsize Hdata]].
      exists self. split; [reflexivity |]. split; [exact Hdata |].
      intros state_dict prefix strict missing_keys unexpected_keys error_msgs Hs.
      exact (@load_saved_state float self state_dict prefix strict missing_keys
               unexpected_keys error_msgs n Hsize Hs).
    + exfalso. unfold FrozenBatchNorm2d_init, torch_full in E.
      rewrite (proj2 (Z.ltb_ge n 0) Hn) in E. discriminate E.
Qed.

Lemma FrozenBatchNorm2d_init_then_load_witness :
  exists self,
    FrozenBatchNorm2d_init 2 = Ok self /\
    ls_unexpected_keys
      (FrozenBatchNorm2d_load_from_state_dict self (checkpoint true) "bn1." true [] [] [])
    = [].
Proof.
  destruct (proj2 (@FrozenBatchNorm2d_init_then_load Z TorchZ 2) ltac:(discriminate))
    as [self [Hinit [_ Hload]]].
  exists self. split; [exact Hinit |].
  exact (proj1 (proj2 (Hload (checkpoint true) "bn1."%string true [] [] []
                         (checkpoint_saved_state true)))).
Defined.

(** ** Further runs on concrete inputs *)

Lemma extract_image_patches_square_dilated_witness :
  exists y,
    extract_image_patches (zeros [1; 3; 4; 4]) 3 1 2 = Ok y /\
    shape y = [1; 3 * 3 * 3; 6; 6].
Proof.
  destruct (@extract_image_patches_square_dilated Z TorchZ (zeros [1; 3; 4; 4])
              1 3 4 3 1 2 eq_refl ltac:(lia) ltac:(lia) ltac:(lia) ltac:(lia)
              ltac:(lia))
    as [y [Hy [Sy _]]].
  exists y. split; [exact Hy | exact Sy].
Defined.

Lemma extract_image_patches_contents_witness :
  exists y,
    extract_image_patches (ramp [1; 1; 3; 3]) 2 1 1 = Ok y /\
    data y [0; 3; 0; 0] = 4 /\ data y [0; 3; 2; 2] = 0.
Proof.
  eexists. split; [reflexivity |]. split.
  - apply (@extract_image_patches_contents Z TorchZ (ramp [1; 1; 3; 3]) _
             1 1 3 3 2 1 1 eq_refl ltac:(lia) ltac:(lia) ltac:(lia) eq_refl
             0 1 1 0 0 0);
      vm_compute; split; (discriminate || reflexivity).
  - apply (@extract_image_patches_contents Z TorchZ (ramp [1; 1; 3; 3]) _
             1 1 3 3 2 1 1 eq_refl ltac:(lia) ltac:(lia) ltac:(lia) eq_refl
             0 1 1 0 2 2);
      vm_compute; split; (discriminate || reflexivity).
Defined.

Lemma four_stages_NoDup : NoDup (keys four_stages).
Proof.
  repeat constructor; simpl; intuition discriminate.
Qed.

Lemma BackboneBase_forward_keeps_stage_order_witness :
  exists out,
    BackboneBase_forward four_stage batch = Ok out /\
    keys out = ["0"; "1"; "2"; "3"]%string.
Proof.
  eexists. split; [reflexivity |].
  apply (proj1 (proj2 (@BackboneBase_forward_keeps_stage_order Z TorchZ four_stage batch
                         four_stages _ eq_refl four_stages_NoDup eq_refl))).
Defined.

Lemma TorchZ_bool_round_trip : forall v : bool, to_bool (of_bool v) = v.
Proof.
  intros [|]; reflexivity.
Qed.

Lemma BackboneBase_forward_mask_values_witness :
  exists out,
    BackboneBase_forward stage_14 batch_62 = Ok out /\
    forall name o, In (name, o) out ->
      exists mk, mask o = Some mk /\ shape mk = [1; 14; 14] /\
                 data mk [0; 0; 7] = true /\ data mk [0; 0; 6] = false.
Proof.
  eexists. split; [reflexivity |].
  intros name o Hin.
  destruct (@BackboneBase_forward_mask_values Z TorchZ stage_14 batch_62 _
              (mask_column [1; 62; 62] 30) 1 62 62 TorchZ_bool_round_trip
              (fun i o d => eq_refl) eq_refl eq_refl
              eq_refl name o Hin) as [mk [h' [w' [Hmk [Hl [Hs Hd]]]]]].
  exists mk. split; [exact Hmk |].
  simpl in Hin. destruct Hin as [E | []]. injection E as <- <-.
  injection Hl as <- <-.
  split; [exact Hs |].
  rewrite (proj1 (Hd 0 0 7)), (proj1 (Hd 0 0 6)). split; reflexivity.
Defined.

Lemma Joiner_forward_parallel_witness :
  exists out pos,
    Joiner_forward toy_joiner batch = Ok (out, pos) /\
    length out = 4%nat /\ length pos = 4%nat.
Proof.
  eexists. eexists. split; [reflexivity |].
  destruct (proj1 (@Joiner_forward_parallel Z TorchZ toy_joiner batch) _ _ eq_refl)
    as [xs [_ [_ [Hlen _]]]].
  split; [reflexivity | exact Hlen].
Defined.

Lemma IntermediateLayerGetterBackbone_init_num_channels_witness :
  exists self,
    IntermediateLayerGetterBackbone_init toy_env (Some "2"%string) four_stage = Ok self /\
    ilgb_num_channels self = 1024.
Proof.
  destruct (proj1 (proj1 (proj2 (@IntermediateLayerGetterBackbone_init_num_channels
                                   Z toy_env four_stage))
                     "2"%string 2 eq_refl))
    as [self [Hinit [_ Hnc]]].
  - lia.
  - exists self. split; [exact Hinit | exact Hnc].
Defined.

Lemma four_stages_rank :
  Forall (fun e : string * Tensor Z => (2 <= length (shape (snd e)))%nat) four_stages.
Proof.
  repeat constructor.
Qed.

Lemma IntermediateLayerGetterBackbone_forward_selects_witness :
  (exists o,
      IntermediateLayerGetterBackbone_forward (selector "2") batch = Ok o /\
      In ("2"%string, tensors o) four_stages) /\
  IntermediateLayerGetterBackbone_forward (selector "4") batch = Raise KeyError.
Proof.
  split.
  - eexists. split; [reflexivity |].
    apply (proj1 (@IntermediateLayerGetterBackbone_forward_selects Z TorchZ
                    (selector "2") batch four_stages eq_refl four_stages_rank)).
    reflexivity.
  - eapply (proj2 (@IntermediateLayerGetterBackbone_forward_selects Z TorchZ
                     (selector "4") batch four_stages eq_refl four_stages_rank)).
    + reflexivity.
    + simpl. intuition discriminate.
Defined.

Lemma BackboneBase_init_trainable_names_witness :
  exists self,
    BackboneBase_init small_net true 2048 false (Some []) = Ok self /\
    forall name p, In (name, p) (bb_parameters self) -> requires_grad p = false.
Proof.
  eexists. split; [reflexivity |].
  apply (proj1 (proj2 (@BackboneBase_init_trainable_names Z small_net true 2048 false
                         (Some []) _ eq_refl))).
  reflexivity.
Defined.

Lemma build_backbone_without_catalog_witness :
  exists self,
    build_backbone empty_env (args_of "perceiver" "patch")
    = Ok (PatchBackboneModel Z self) /\
    pb_kernel self = 3.
Proof.
  destruct (proj2 (@build_backbone_without_catalog Z TorchZ empty_env
                     (args_of "perceiver" "patch") ltac:(discriminate)) eq_refl)
    as [self [Hb [Hk _]]].
  exists self. split; [exact Hb | exact Hk].
Defined.

Lemma build_backbone_detr_witness :
  exists self,
    build_backbone toy_env (toy_args "detr" "resnet18" 0 None) = Ok (JoinerModel self) /\
    j_num_channels self = Some 512 /\
    forall name p, In (name, p) (bb_parameters (j_backbone self)) ->
                   requires_grad p = false.
Proof.
  eexists. split; [reflexivity |].
  destruct (@build_backbone_detr Z toy_env (toy_args "detr" "resnet18" 0 None) _
              eq_refl eq_refl)
    as [constructor [net [self [Hm [_ [_ [_ [Hj [Hnc [_ [_ Hfrozen]]]]]]]]]]].
  injection Hm as <-. split.
  - reflexivity.
  - apply Hfrozen. discriminate.
Defined.

Lemma build_backbone_resnet50_witness :
  exists self,
    build_backbone toy_env (toy_args "perceiver" "resnet50" (1 # 100000) (Some "1"%string))
    = Ok (IntermediateLayerGetterBackboneModel self) /\
    ilgb_layer self = "1"%string /\ ilgb_num_channels self = 512.
Proof.
  eexists. split; [reflexivity |].
  destruct (@build_backbone_resnet50 Z toy_env
              (toy_args "perceiver" "resnet50" (1 # 100000) (Some "1"%string)) _
              ltac:(discriminate) eq_refl eq_refl)
    as [constructor [net [self [Hm [_ [_ [_ [_ Hsome]]]]]]]].
  injection Hm as <-.
  destruct (Hsome "1"%string 1 eq_refl ltac:(discriminate) eq_refl ltac:(lia))
    as [Hl [Hnc _]].
  split; [exact Hl | exact Hnc].
Defined.
